(** * tezgah-backend: products, colours and the spreadsheet import

    A shallow embedding of [main.py] and [models.py]: the two tables, the
    SQLAlchemy session the handlers share through [get_db], the request
    handlers, and [upload_excel] with the pandas steps it performs on the
    parsed frame. *)

From Stdlib Require Import ZArith List String Ascii Bool Lia.
From Stdlib Require Import PrimFloat FloatOps SpecFloat DecimalString.
Import ListNotations.
Open Scope string_scope.
Open Scope Z_scope.

(** ** Python strings

    A [str] is kept as its UTF-8 bytes (the column labels of the sheet are
    not ASCII).  Equality of strings is equality of the byte sequences. *)

Module Py.

(** The code points [str.isspace] accepts, in UTF-8: U+0009..U+000D,
    U+001C..U+001F, U+0020, U+0085, U+00A0, U+1680, U+2000..U+200A,
    U+2028, U+2029, U+202F, U+205F and U+3000. *)
Definition whitespace : list (list nat) :=
  [ [9]; [10]; [11]; [12]; [13]; [28]; [29]; [30]; [31]; [32];
    [194; 133]; [194; 160]; [225; 154; 128];
    [226; 128; 128]; [226; 128; 129]; [226; 128; 130]; [226; 128; 131];
    [226; 128; 132]; [226; 128; 133]; [226; 128; 134]; [226; 128; 135];
    [226; 128; 136]; [226; 128; 137]; [226; 128; 138];
    [226; 128; 168]; [226; 128; 169]; [226; 128; 175];
    [226; 129; 159]; [227; 128; 128] ]%nat.

Definition encodings : list (list ascii) :=
  map (map ascii_of_nat) whitespace.

(** [drop_prefix p l] is what follows [p] in [l] when [l] starts with [p]. *)
Fixpoint drop_prefix (p l : list ascii) : option (list ascii) :=
  match p, l with
  | [], _ => Some l
  | _ :: _, [] => None
  | a :: p', b :: l' => if Ascii.eqb a b then drop_prefix p' l' else None
  end.

(** One leading character of [l] removed when it is one of [encs]. *)
Fixpoint drop_one (encs : list (list ascii)) (l : list ascii)
  : option (list ascii) :=
  match encs with
  | [] => None
  | e :: encs' =>
      match drop_prefix e l with
      | Some l' => Some l'
      | None => drop_one encs' l
      end
  end.

Fixpoint drop_while (fuel : nat) (encs : list (list ascii)) (l : list ascii)
  : list ascii :=
  match fuel with
  | O => l
  | S fuel' =>
      match drop_one encs l with
      | Some l' => drop_while fuel' encs l'
      | None => l
      end
  end.

Definition lstrip (l : list ascii) : list ascii :=
  drop_while (List.length l) encodings l.

Definition rstrip (l : list ascii) : list ascii :=
  rev (drop_while (List.length l) (map (@rev ascii) encodings) (rev l)).

(** [s.strip()] *)
Definition strip (s : string) : string :=
  string_of_list_ascii (rstrip (lstrip (list_ascii_of_string s))).

(** [s.endswith(suffix)] *)
Definition endswith (s suffix : string) : bool :=
  match drop_prefix (rev (list_ascii_of_string suffix))
                    (rev (list_ascii_of_string s)) with
  | Some _ => true
  | None => false
  end.

(** [str(z)] for an integer. *)
Definition str_of_int (z : Z) : string :=
  NilZero.string_of_int (Z.to_int z).

(** [float(z)] for an integer: the nearest double, and [OverflowError]
    (here [None]) past the largest one. *)
Definition float_of_int (z : Z) : option float :=
  let f := SF2Prim (binary_normalize 53 1024 z 0 false) in
  if PrimFloat.is_infinity f then None else Some f.

End Py.

(** ** The parsed sheet

    What [pd.read_excel] hands back: the column labels, taken to be text,
    and, row by row, the cells.  A cell holds text, an integer or a
    double; an empty cell is the double NaN, which is what [isna] looks
    for. *)

Inductive Cell : Type :=
| Text (s : string)
| Int (z : Z)
| Float (f : float).

Definition NaN : Cell := Float nan.

Definition isna (c : Cell) : bool :=
  match c with
  | Float f => PrimFloat.is_nan f
  | _ => false
  end.

Record DataFrame : Type := mkFrame {
  columns : list string;
  rows : list (list Cell)
}.

(** [row[label]]: one cell when the label names one column, a [Series] of
    the cells when several columns carry the label. *)
Inductive Value : Type :=
| Scalar (c : Cell)
| Series (cs : list Cell).

(** What the interpreter and pandas supply and the repository does not
    define: the parser of the uploaded bytes (an error message when it
    raises), [str] of a double and [float] of a string ([None] when it
    raises [ValueError]). *)
Class Runtime : Type := {
  read_excel : list Byte.byte -> string + DataFrame;
  str_of_float : float -> string;
  float_of_str : string -> option float
}.

(** ** The two tables (models.py) *)

Module Product.
Record t : Type := mk { id : Z; name : string }.
End Product.

Module Color.
Record t : Type := mk {
  id : Z;
  name : string;
  product_id : Z;
  price : float;
  currency : string
}.
End Color.

Record Store : Type := mkStore {
  products : list Product.t;
  colors : list Color.t
}.

Definition empty_store : Store := mkStore [] [].

(** Modelled from the spec: database.py, which builds the engine, is not
    among the sources; the spec has [id] "integer, unique,
    system-assigned".  The key given to a new row is one above the largest
    key of its table, as an integer primary key is filled in. *)
Definition next_id (ids : list Z) : Z := 1 + fold_right Z.max 0 ids.

(** Modelled from the spec: database.py, which names the engine, is not
    among the sources; the spec has a relational store with integer keys
    and a required, non-null price.  The store is taken to be SQLite: an
    integer it is handed must fit in 64 bits, signed, and a double that is
    NaN is stored as NULL. *)
Definition int64 (z : Z) : bool := (- 2 ^ 63 <=? z) && (z <? 2 ^ 63).

(** ** Exceptions and the session *)

Inductive Exn : Type :=
| HTTPException (status_code : Z) (detail : string)
| IntegrityError      (* a constraint of the store is violated *)
| StatementError      (* a bound value does not fit its column *)
| InvalidRequestError (* refresh of an object that is not persistent *)
| OverflowError       (* an integer that does not fit a key of the store *)
| AttributeError.     (* [.str] on a frame instead of a column *)

(** The unit of work: what [db.add], an attribute assignment on a loaded
    object and [db.delete] leave for the next flush. *)
Inductive Pending : Type :=
| NewProduct (name : string)
| NewColor (name : string) (product_id : Z) (price : Value) (currency : string)
| DirtyProduct (id : Z) (name : string)
| DirtyColor (id : Z) (name : string) (price : Value) (currency : string)
| DeletedProduct (id : Z)
| DeletedColor (id : Z).

(** [committed] is what the store holds durably, [view] what the open
    transaction sees (committed rows and flushed ones), [pending] the unit
    of work, and [identity] the primary keys of the objects flushed so
    far, in the order they entered the unit of work. *)
Record Session : Type := mkSession {
  committed : Store;
  view : Store;
  pending : list Pending;
  identity : list Z
}.

Definition M (A : Type) : Type := Session -> (Exn + A) * Session.

Definition ret {A : Type} (a : A) : M A := fun db => (inr a, db).

Definition raise {A : Type} (e : Exn) : M A := fun db => (inl e, db).

Definition bind {A B : Type} (m : M A) (k : A -> M B) : M B :=
  fun db =>
    match m db with
    | (inr a, db') => k a db'
    | (inl e, db') => (inl e, db')
    end.

Declare Scope session_scope.
Delimit Scope session_scope with session.
Notation "x <- m ;; k" := (bind m (fun x => k))
  (at level 61, m at next level, right associativity) : session_scope.
Notation "m ;; k" := (bind m (fun _ => k))
  (at level 61, right associativity) : session_scope.
Open Scope session_scope.

(** [for x in xs: body(x)] *)
Fixpoint for_each {A : Type} (xs : list A) (body : A -> M unit) : M unit :=
  match xs with
  | [] => ret tt
  | x :: xs' => body x ;; for_each xs' body
  end.

(** [get_db]: a session on the store for one request; closing it drops
    whatever was not committed. *)
Definition get_db (st : Store) : Session := mkSession st st [] [].

Definition close (db : Session) : Store := committed db.

Definition request {A : Type} (handler : M A) (st : Store)
  : (Exn + A) * Store :=
  let (r, db) := handler (get_db st) in (r, close db).

(** The status the client sees: an [HTTPException] carries its own, any
    other exception leaves the handler and becomes a server error. *)
Definition status_code {A : Type} (r : Exn + A) : Z :=
  match r with
  | inr _ => 200
  | inl (HTTPException code _) => code
  | inl _ => 500
  end.

(** ** Request bodies (the pydantic models) and replies *)

Module ProductCreate.
Record t : Type := mk { name : string }.
End ProductCreate.

Module ColorCreate.
Record t : Type := mk {
  product_id : Z;
  name : string;
  price : float;
  currency : string
}.
End ColorCreate.

Module ColorUpdate.
Record t : Type := mk { name : string; price : float; currency : string }.
End ColorUpdate.

Module Reply.
Record t : Type := mk { message : string; id : option Z }.
End Reply.

(** The labels [upload_excel] asks for: product name, colour, price and
    currency. *)
Definition Urun_Adi : string := "Ürün Adı".
Definition Renk : string := "Renk".
Definition Fiyat : string := "Fiyat".
Definition Para_Birimi : string := "Para Birimi".

Definition required_columns : list string :=
  [Urun_Adi; Renk; Fiyat; Para_Birimi].

(** A row of the cleaned frame, as the loop of [upload_excel] reads it. *)
Record Row : Type := mkRow {
  urun_adi : string;
  renk : string;
  fiyat : Value;
  para_birimi : string
}.

(** ** The pandas steps of [upload_excel] *)

(** The positions of the columns that carry [label]. *)
Fixpoint positions_from (i : nat) (label : string) (cols : list string)
  : list nat :=
  match cols with
  | [] => []
  | c :: cols' =>
      (if String.eqb c label then [i] else [])
        ++ positions_from (S i) label cols'
  end.

Definition positions (label : string) (cols : list string) : list nat :=
  positions_from 0 label cols.

(** The cells of row [r] under [label]. *)
Definition cells_at (cols : list string) (label : string) (r : list Cell)
  : list Cell :=
  map (fun i => nth i r NaN) (positions label cols).

(** No cell of [r] under a label of [subset] is missing. *)
Definition complete (cols subset : list string) (r : list Cell) : bool :=
  forallb (fun label => forallb (fun c => negb (isna c)) (cells_at cols label r))
          subset.

(** [df.dropna(subset=subset)] *)
Definition dropna (subset : list string) (df : DataFrame) : DataFrame :=
  mkFrame (columns df) (filter (complete (columns df) subset) (rows df)).

(** [required.issubset(cols)] *)
Definition issubset (required cols : list string) : bool :=
  forallb (fun label => existsb (String.eqb label) cols) required.

(** [row[label]] *)
Definition value_at (cols : list string) (label : string) (r : list Cell)
  : Value :=
  match cells_at cols label r with
  | [c] => Scalar c
  | cs => Series cs
  end.

(** Modelled from the spec: [SessionLocal] is built in database.py, which
    is not among the sources.  The spec has each lookup of the import see
    what the earlier rows of the same batch added (4.1 step 3, and the
    "first occurrence wins" example of section 8): the session flushes its
    unit of work before a query, which is also SQLAlchemy's default. *)
Definition autoflush : bool := true.

Section Handlers.

Context {rt : Runtime}.

(** *** The store, one flushed operation at a time *)

(** The bind processor of a [Float] column: [float(value)]. *)
Definition to_float (v : Value) : option float :=
  match v with
  | Scalar (Float f) | Series [Float f] => Some f
  | Scalar (Int z) | Series [Int z] => Py.float_of_int z
  | Scalar (Text s) | Series [Text s] => float_of_str s
  | Series _ => None
  end.

(** The price as the colours table takes it: bound by [to_float]
    ([StatementError] when that raises), and refused when it is NaN, which
    reaches the table as NULL against [nullable=False] (models.py line
    18). *)
Definition price_of (v : Value) : Exn + float :=
  match to_float v with
  | None => inl StatementError
  | Some f => if PrimFloat.is_nan f then inl IntegrityError else inr f
  end.

Definition named (n : string) (p : Product.t) : bool :=
  String.eqb (Product.name p) n.

(** One operation of the unit of work applied to the tables, with the
    primary key of the row it touched.  [Product.name] is unique
    (models.py line 9); [Color.price] is not null (line 18); deleting a
    product deletes its colours (the cascade of line 10). *)
Definition flush_one (o : Pending) (st : Store) : Exn + Store * Z :=
  match o with
  | NewProduct n =>
      if existsb (named n) (products st) then inl IntegrityError
      else
        let i := next_id (map Product.id (products st)) in
        inr (mkStore (products st ++ [Product.mk i n]) (colors st), i)
  | NewColor n pid v cur =>
      match price_of v with
      | inl e => inl e
      | inr f =>
          let i := next_id (map Color.id (colors st)) in
          inr (mkStore (products st)
                       (colors st ++ [Color.mk i n pid f cur]), i)
      end
  | DirtyProduct i n =>
      if existsb (fun p => named n p && negb (Product.id p =? i))
                 (products st)
      then inl IntegrityError
      else
        inr (mkStore
               (map (fun p => if Product.id p =? i then Product.mk i n else p)
                    (products st))
               (colors st), i)
  | DirtyColor i n v cur =>
      match price_of v with
      | inl e => inl e
      | inr f =>
          inr (mkStore
                 (products st)
                 (map (fun c => if Color.id c =? i
                                then Color.mk i n (Color.product_id c) f cur
                                else c)
                      (colors st)), i)
      end
  | DeletedProduct i =>
      inr (mkStore
             (filter (fun p => negb (Product.id p =? i)) (products st))
             (filter (fun c => negb (Color.product_id c =? i)) (colors st)),
           i)
  | DeletedColor i =>
      inr (mkStore (products st)
                   (filter (fun c => negb (Color.id c =? i)) (colors st)), i)
  end.

Fixpoint flush_all (ops : list Pending) (st : Store)
  : Exn + Store * list Z :=
  match ops with
  | [] => inr (st, [])
  | o :: ops' =>
      match flush_one o st with
      | inl e => inl e
      | inr (st', i) =>
          match flush_all ops' st' with
          | inl e => inl e
          | inr (st'', ids) => inr (st'', i :: ids)
          end
      end
  end.

(** *** The session *)

(** [db.add(obj)], and likewise a changed or deleted object: it joins
    the unit of work; the result names the object for [db_refresh]. *)
Definition db_add (o : Pending) : M nat :=
  fun db =>
    (inr (List.length (identity db) + List.length (pending db))%nat,
     mkSession (committed db) (view db) (pending db ++ [o]) (identity db)).

Definition db_flush : M unit :=
  fun db =>
    match flush_all (pending db) (view db) with
    | inl e => (inl e, db)
    | inr (st, ids) =>
        (inr tt, mkSession (committed db) st [] (identity db ++ ids))
    end.

(** [db.commit()] *)
Definition db_commit : M unit :=
  db_flush ;;
  fun db => (inr tt, mkSession (view db) (view db) [] (identity db)).

(** [db.refresh(obj)], read for the primary key of [obj]. *)
Definition db_refresh (obj : nat) : M Z :=
  fun db =>
    match nth_error (identity db) obj with
    | Some i => (inr i, db)
    | None => (inl InvalidRequestError, db)
    end.

(** [db.query(...)]: the tables as the transaction sees them. *)
Definition db_query {A : Type} (q : Store -> A) : M A :=
  (if autoflush then db_flush else ret tt) ;;
  fun db => (inr (q (view db)), db).

(** [.first()] *)
Definition first {A : Type} (l : list A) : option A := hd_error l.

(** [db.query(T).filter(T.id == id).first()]: the row of [table] whose
    key is [id].  The driver binds [id] as a 64-bit integer and raises
    [OverflowError] when it does not fit; no row of a table carries such
    a key, so an id that a row carries is one the driver binds. *)
Definition db_get {A : Type} (table : Store -> list A) (key : A -> Z)
    (id : Z) : M (option A) :=
  found <- db_query (fun st =>
    first (filter (fun r => key r =? id) (table st))) ;;
  match found with
  | Some r => ret (Some r)
  | None => if int64 id then ret None else raise OverflowError
  end.

(** *** The handlers of main.py *)

(** GET /products/ *)
Definition get_products : M (list (Product.t * list Color.t)) :=
  db_query (fun st =>
    map (fun p =>
           (p, filter (fun c => Color.product_id c =? Product.id p)
                      (colors st)))
        (products st)).

(** POST /products/ *)
Definition add_product (product : ProductCreate.t) : M Reply.t :=
  new_product <- db_add (NewProduct (ProductCreate.name product)) ;;
  db_commit ;;
  id <- db_refresh new_product ;;
  ret (Reply.mk "Ürün eklendi!" (Some id)).

(** GET /colors/ *)
Definition get_colors : M (list Color.t) :=
  db_query (fun st => colors st).

(** POST /colors/ *)
Definition add_color (color : ColorCreate.t) : M Reply.t :=
  product <- db_get products Product.id (ColorCreate.product_id color) ;;
  match product with
  | None => raise (HTTPException 404 "Ürün bulunamadı")
  | Some _ =>
      new_color <- db_add (NewColor (ColorCreate.name color)
                                    (ColorCreate.product_id color)
                                    (Scalar (Float (ColorCreate.price color)))
                                    (ColorCreate.currency color)) ;;
      db_commit ;;
      id <- db_refresh new_color ;;
      ret (Reply.mk "Renk eklendi!" (Some id))
  end.

(** PUT /products/{product_id} *)
Definition update_product (product_id : Z) (product : ProductCreate.t)
  : M Reply.t :=
  existing_product <- db_get products Product.id product_id ;;
  match existing_product with
  | None => raise (HTTPException 404 "Ürün bulunamadı")
  | Some p =>
      db_add (DirtyProduct (Product.id p) (ProductCreate.name product)) ;;
      db_commit ;;
      ret (Reply.mk "Ürün güncellendi!" None)
  end.

(** PUT /colors/{color_id} *)
Definition update_color (color_id : Z) (color : ColorUpdate.t)
  : M Reply.t :=
  existing_color <- db_get colors Color.id color_id ;;
  match existing_color with
  | None => raise (HTTPException 404 "Renk bulunamadı")
  | Some c =>
      db_add (DirtyColor (Color.id c)
                         (ColorUpdate.name color)
                         (Scalar (Float (ColorUpdate.price color)))
                         (ColorUpdate.currency color)) ;;
      db_commit ;;
      ret (Reply.mk "Renk güncellendi!" None)
  end.

(** DELETE /products/{product_id} *)
Definition delete_product (product_id : Z) : M Reply.t :=
  product <- db_get products Product.id product_id ;;
  match product with
  | None => raise (HTTPException 404 "Ürün bulunamadı")
  | Some p =>
      db_add (DeletedProduct (Product.id p)) ;;
      db_commit ;;
      ret (Reply.mk "Ürün silindi!" None)
  end.

(** DELETE /colors/{color_id} *)
Definition delete_color (color_id : Z) : M Reply.t :=
  color <- db_get colors Color.id color_id ;;
  match color with
  | None => raise (HTTPException 404 "Renk bulunamadı")
  | Some c =>
      db_add (DeletedColor (Color.id c)) ;;
      db_commit ;;
      ret (Reply.mk "Renk silindi!" None)
  end.

(** POST /upload-excel/ *)

(** [column.astype(str)] on one cell. *)
Definition astype_str (c : Cell) : string :=
  match c with
  | Text s => s
  | Int z => Py.str_of_int z
  | Float f => str_of_float f
  end.

(** [df[label].astype(str).str.strip()], as the reading of one row: a
    label that several columns carry selects a frame, which has no
    [.str]. *)
Definition str_strip (cols : list string) (label : string)
  : Exn + (list Cell -> string) :=
  match positions label cols with
  | [i] => inr (fun r => Py.strip (astype_str (nth i r NaN)))
  | _ => inl AttributeError
  end.

(** Lines 178 to 183: the rows the loop iterates over, once the rows
    with a missing value are dropped and the three text columns are
    rendered and stripped. *)
Definition iterrows (excel_data : DataFrame) : Exn + list Row :=
  let cols := columns excel_data in
  let kept := dropna required_columns excel_data in
  match str_strip cols Urun_Adi with
  | inl e => inl e
  | inr name =>
      match str_strip cols Renk with
      | inl e => inl e
      | inr color =>
          match str_strip cols Para_Birimi with
          | inl e => inl e
          | inr cur =>
              inr (map (fun r => mkRow (name r) (color r)
                                       (value_at cols Fiyat r) (cur r))
                       (rows kept))
          end
      end
  end.

(** The body of the loop, lines 184 to 206. *)
Definition upload_row (row : Row) : M unit :=
  product <- db_query (fun st =>
    first (filter (named (urun_adi row)) (products st))) ;;
  product_id <-
    match product with
    | Some p => ret (Product.id p)
    | None =>
        new_product <- db_add (NewProduct (urun_adi row)) ;;
        db_commit ;;
        db_refresh new_product
    end ;;
  color_exists <- db_query (fun st =>
    first (filter (fun c => String.eqb (Color.name c) (renk row)
                            && (Color.product_id c =? product_id))
                  (colors st))) ;;
  match color_exists with
  | Some _ => ret tt
  | None =>
      db_add (NewColor (renk row) product_id (fiyat row) (para_birimi row)) ;;
      ret tt
  end.

Definition upload_excel (filename : string) (contents : list Byte.byte)
  : M Reply.t :=
  if negb (Py.endswith filename ".xlsx") then
    raise (HTTPException 400 "Lütfen .xlsx formatında bir dosya yükleyin")
  else
    match read_excel contents with
    | inl e => raise (HTTPException 400 ("Excel dosyası okunamadı: " ++ e))
    | inr parsed =>
        let excel_data :=
          mkFrame (map Py.strip (columns parsed)) (rows parsed) in
        if negb (issubset required_columns (columns excel_data)) then
          raise (HTTPException 400 "Excel dosyasında eksik sütun var!")
        else
          match iterrows excel_data with
          | inl e => raise e
          | inr cleaned =>
              for_each cleaned upload_row ;;
              db_commit ;;
              ret (Reply.mk "Excel başarıyla yüklendi!" None)
          end
    end.

End Handlers.

(** ** Specification helpers *)

Open Scope list_scope.

(** The key under which the import looks a colour up: its name within its
    product. *)
Definition color_key (c : Color.t) : string * Z :=
  (Color.name c, Color.product_id c).

(** The cell of row [r] under a label that names one column. *)
Definition cell_at (cols : list string) (label : string) (r : list Cell)
  : Cell :=
  hd NaN (cells_at cols label r).

(** The frame [upload_excel] works on once the labels are stripped. *)
Definition stripped (parsed : DataFrame) : DataFrame :=
  mkFrame (map Py.strip (columns parsed)) (rows parsed).

(** Every colour belongs to a product of the store (no orphan colour). *)
Definition attached (st : Store) : Prop :=
  forall c, In c (colors st) ->
    exists p, In p (products st) /\ Product.id p = Color.product_id c.

(** The keys of the colours waiting in the unit of work. *)
Definition pending_keys (ops : list Pending) : list (string * Z) :=
  flat_map (fun o => match o with
                     | NewColor n pid _ _ => [(n, pid)]
                     | _ => []
                     end) ops.

Section Specification.

Context {rt : Runtime}.

(** The text of a cell as the import stores it: rendered, then stripped. *)
Definition rendered (cols : list string) (label : string) (r : list Cell)
  : string :=
  Py.strip (astype_str (cell_at cols label r)).

Definition clean_row (cols : list string) (r : list Cell) : Row :=
  mkRow (rendered cols Urun_Adi r) (rendered cols Renk r)
        (value_at cols Fiyat r) (rendered cols Para_Birimi r).

(** The two halves of the loop body: the product of the row, looked up or
    created, and then its colour. *)
Definition product_step (row : Row) : M Z :=
  product <- db_query (fun st =>
    first (filter (named (urun_adi row)) (products st))) ;;
  match product with
  | Some p => ret (Product.id p)
  | None =>
      new_product <- db_add (NewProduct (urun_adi row)) ;;
      db_commit ;;
      db_refresh new_product
  end.

Definition color_step (row : Row) (product_id : Z) : M unit :=
  color_exists <- db_query (fun st =>
    first (filter (fun c => String.eqb (Color.name c) (renk row)
                            && (Color.product_id c =? product_id))
                  (colors st))) ;;
  match color_exists with
  | Some _ => ret tt
  | None =>
      db_add (NewColor (renk row) product_id (fiyat row) (para_birimi row)) ;;
      ret tt
  end.

(** A colour named [n] under product [pid] was asked for by a row of
    [seen], whose product is in [ps]. *)
Definition row_of_color (seen : list Row) (ps : list Product.t)
    (n : string) (pid : Z) (v : Value) (cur : string) : Prop :=
  exists row p,
    In row seen /\ n = renk row /\ cur = para_birimi row /\ v = fiyat row
    /\ In p ps /\ Product.id p = pid /\ Product.name p = urun_adi row.

Definition stored_from (seen : list Row) (ps : list Product.t) (c : Color.t)
  : Prop :=
  exists v, price_of v = inr (Color.price c)
            /\ row_of_color seen ps (Color.name c) (Color.product_id c) v
                            (Color.currency c).

(** Some row of [seen] carries a price the colours table refuses with
    [e]. *)
Definition bad_price (e : Exn) (seen : list Row) : Prop :=
  exists row, In row seen /\ price_of (fiyat row) = inl e.

(** The invariant of the import loop, between two rows.  [st0] is the
    store the request started from, [seen] the rows whose product has been
    resolved and [done] the rows fully processed.  Products are committed
    as they are created; colours are appended, committed ([kc]), flushed
    ([kv]) or still pending, and no two new colours share a key with each
    other or with a colour of [st0]. *)
Definition Inv (st0 : Store) (seen done : list Row) (s : Session) : Prop :=
  exists newp kc kv,
    products (committed s) = products st0 ++ newp
    /\ products (view s) = products st0 ++ newp
    /\ colors (committed s) = colors st0 ++ kc
    /\ colors (view s) = colors st0 ++ kc ++ kv
    /\ (pending s = []
        \/ exists n pid v cur,
             pending s = [NewColor n pid v cur]
             /\ row_of_color seen (products (view s)) n pid v cur)
    /\ NoDup (map color_key (kc ++ kv) ++ pending_keys (pending s))
    /\ (forall k, In k (map color_key (kc ++ kv) ++ pending_keys (pending s)) ->
                  ~ In k (map color_key (colors st0)))
    /\ (forall c, In c (kc ++ kv) -> stored_from seen (products (view s)) c)
    /\ (forall p, In p newp ->
          exists row, In row seen /\ Product.name p = urun_adi row)
    /\ (forall row, In row done ->
          exists p, In p (products (view s))
                    /\ Product.name p = urun_adi row
                    /\ In (renk row, Product.id p)
                          (map color_key (colors (view s))
                             ++ pending_keys (pending s))).

End Specification.

(** ** Example data *)

(** A runtime for the examples: the parser reads an empty upload as
    [first_sheet] and any other as [other_sheet]; the only number an
    example sheet writes as text is nan, which [float] reads whatever
    blanks surround it, and no example renders a double. *)
Definition example_runtime (first_sheet other_sheet : DataFrame) : Runtime :=
  {| read_excel := fun contents =>
       match contents with
       | [] => inr first_sheet
       | _ => inr other_sheet
       end;
     str_of_float := fun _ => "nan";
     float_of_str := fun s =>
       if String.eqb (Py.strip s) "nan" then Some nan else None |}.

Definition sheet (data : list (list Cell)) : DataFrame :=
  mkFrame [Urun_Adi; Renk; Fiyat; Para_Birimi] data.

(** The sheet of the spec's import example; its last price is an integer
    cell. *)
Definition shirt_sheet : DataFrame :=
  sheet [ [Text "Shirt"; Text "Red"; Float 10; Text "USD"];
          [Text "Shirt"; Text "Red"; Float 12; Text "EUR"];
          [Text "Shirt"; Text "Blue"; Int 10; Text "USD"] ].

(** A sheet whose first row has a product name of three spaces. *)
Definition blank_name_sheet : DataFrame :=
  sheet [ [Text "   "; Text "Red"; Float 10; Text "USD"];
          [Text "Shirt"; Text "Blue"; Float 10; Text "USD"] ].

(** A sheet whose first row has an empty product name cell, and the same
    sheet without that row. *)
Definition missing_name_sheet : DataFrame :=
  sheet [ [NaN; Text "Red"; Float 10; Text "USD"];
          [Text "Shirt"; Text "Blue"; Float 10; Text "USD"] ].

Definition one_row_sheet : DataFrame :=
  sheet [ [Text "Shirt"; Text "Blue"; Float 10; Text "USD"] ].

(** A sheet whose second row has a price that is no number. *)
Definition bad_price_sheet : DataFrame :=
  sheet [ [Text "Shirt"; Text "Red"; Float 10; Text "USD"];
          [Text "Hat"; Text "Blue"; Text "abc"; Text "USD"] ].

(** A sheet whose second row has the price nan, written as text. *)
Definition nan_price_sheet : DataFrame :=
  sheet [ [Text "Shirt"; Text "Red"; Float 10; Text "USD"];
          [Text "Hat"; Text "Blue"; Text " nan"; Text "USD"] ].


Definition shirt_store : Store :=
  mkStore [Product.mk 1 "Shirt"] [Color.mk 1 "Red" 1 10 "USD"].

(** A runtime for the handlers that read no sheet. *)
Definition no_sheet : Runtime := example_runtime (sheet []) (sheet []).

Definition two_color_store : Store :=
  mkStore [Product.mk 1 "Shirt"]
          [Color.mk 1 "Red" 1 10 "USD"; Color.mk 2 "Blue" 1 10 "USD"].

(** A sheet without the currency column. *)
Definition no_currency_sheet : DataFrame :=
  mkFrame [Urun_Adi; Renk; Fiyat] [[Text "Shirt"; Text "Red"; Float 10]].

(** Runs the session operations of a handler. *)
Ltac run :=
  cbv beta iota zeta delta [request bind db_get db_query autoflush db_commit
    db_flush db_add db_refresh ret raise get_db close]; simpl.

(** ** Further specification *)

(** The constraints of models.py: primary keys are unique in each table,
    and [Product.name] is unique. *)
Definition constrained (st : Store) : Prop :=
  NoDup (map Product.id (products st))
  /\ NoDup (map Product.name (products st))
  /\ NoDup (map Color.id (colors st)).

(** Both the durable store and the transaction's view are constrained. *)
Definition constrained_session (s : Session) : Prop :=
  constrained (committed s) /\ constrained (view s).

(** [m] keeps [P]: from a session with [P], it stops, with a result or an
    exception, in a session with [P]. *)
Definition keeps (P : Session -> Prop) {A : Type} (m : M A) : Prop :=
  forall s, P s -> P (snd (m s)).

(** The product of [row] and its colour are in the store [st]. *)
Definition settled (st : Store) (row : Row) : Prop :=
  exists p,
    find (named (urun_adi row)) (products st) = Some p
    /\ In (renk row, Product.id p) (map color_key (colors st)).

(** [row] carries no surrounding whitespace in its three texts. *)
Definition trimmed (row : Row) : Prop :=
  Py.strip (urun_adi row) = urun_adi row
  /\ Py.strip (renk row) = renk row
  /\ Py.strip (para_birimi row) = para_birimi row.

Section FurtherSpecification.

Context {rt : Runtime}.

(** The upload fails validation. *)
Definition refused (filename : string) (contents : list Byte.byte) : Prop :=
  Py.endswith filename ".xlsx" = false
  \/ (exists e, read_excel contents = inl e)
  \/ (exists parsed,
        read_excel contents = inr parsed
        /\ issubset required_columns (columns (stripped parsed)) = false).

End FurtherSpecification.

(** A store with two products, and a sheet whose labels are padded with
    whitespace. *)
Definition two_product_store : Store :=
  mkStore [Product.mk 1 "Shirt"; Product.mk 2 "Hat"]
          [Color.mk 1 "Red" 1 10 "USD"].

Definition padded_labels : list string :=
  [" Ürün Adı"; "Renk "; " Fiyat "; "Para Birimi  "].

Definition padded_sheet : DataFrame :=
  mkFrame padded_labels [[Text "Shirt"; Text "Blue"; Float 10; Text "USD"]].

(** * Properties *)

Section Properties.

Context {rt : Runtime}.

(** ** Lists and lookups *)

Lemma first_filter {A : Type} (f : A -> bool) (l : list A) :
  first (filter f l) = find f l.
Proof.
  induction l as [|a l IH]; simpl; [reflexivity|].
  destruct (f a); simpl; auto.
Qed.


Lemma existsb_named (n : string) (l : list Product.t) :
  existsb (named n) l = true <->
  exists p, In p l /\ Product.name p = n.
Proof.
  rewrite existsb_exists. unfold named.
  split; intros [p [Hp E]]; exists p; split; auto.
  - now apply String.eqb_eq.
  - now apply String.eqb_eq.
Qed.

Lemma request_fst {A : Type} (handler : M A) (st : Store) :
  fst (request handler st) = fst (handler (get_db st)).
Proof. unfold request. now destruct (handler (get_db st)). Qed.

Lemma request_snd {A : Type} (handler : M A) (st : Store) :
  snd (request handler st) = committed (snd (handler (get_db st))).
Proof. unfold request, close. now destruct (handler (get_db st)). Qed.

(** ** The import loop keeps its invariant *)

Lemma upload_row_steps (row : Row) (s : Session) :
  upload_row row s = (pid <- product_step row ;; color_step row pid) s.
Proof.
  unfold upload_row, product_step, color_step. unfold bind.
  destruct (db_query _ s) as [[e|[p|]] s1]; try reflexivity.
Qed.

Lemma Inv_init (st0 : Store) : Inv st0 [] [] (get_db st0).
Proof.
  exists [], [], []. simpl. rewrite !app_nil_r.
  repeat split; auto; try constructor; try contradiction.
Qed.

Lemma incl_snoc {A : Type} (l : list A) (a : A) : incl l (l ++ [a]).
Proof. intros x Hx. apply in_or_app. now left. Qed.

Lemma row_of_color_mono seen seen' ps ps' n pid v cur :
  row_of_color seen ps n pid v cur ->
  incl seen seen' -> incl ps ps' ->
  row_of_color seen' ps' n pid v cur.
Proof.
  intros (row & p & H1 & H2 & H3 & H4 & H5 & H6 & H7) Hd Hp.
  unfold incl in *. exists row, p. repeat split; auto.
Qed.

Lemma stored_from_mono seen seen' ps ps' c :
  stored_from seen ps c -> incl seen seen' -> incl ps ps' ->
  stored_from seen' ps' c.
Proof.
  intros (v & Hv & H) Hd Hp. exists v. split; [exact Hv|].
  eapply row_of_color_mono; eauto.
Qed.

Lemma price_of_inl (v : Value) (e : Exn) :
  price_of v = inl e -> e = StatementError \/ e = IntegrityError.
Proof.
  unfold price_of. destruct (to_float v) as [f|];
    [destruct (PrimFloat.is_nan f)|]; intros H; inversion H; auto.
Qed.

Lemma bad_price_cause (e : Exn) (seen : list Row) :
  bad_price e seen -> e = StatementError \/ e = IntegrityError.
Proof. intros (row & _ & H). eapply price_of_inl; eauto. Qed.

Lemma flush_spec (st0 : Store) (seen done : list Row) (s : Session) :
  Inv st0 seen done s ->
  match db_flush s with
  | (inr _, s') => Inv st0 seen done s' /\ pending s' = []
  | (inl e, s') => s' = s /\ bad_price e seen
  end.
Proof.
  destruct s as [c v p ids].
  intros (newp & kc & kv & Hcp & Hvp & Hcc & Hvc & Hp & Hnd & Hdis & Hst
          & Hnew & Hrow).
  simpl in *. unfold db_flush. simpl.
  destruct Hp as [Hp | (n & pid & val & cur & Hp & Hfrom)]; subst p; simpl.
  - repeat split; auto. exists newp, kc, kv. simpl. repeat split; auto.
  - destruct (price_of val) as [e|f] eqn:Ef.
    { split; [reflexivity|].
      destruct Hfrom as (row & q & Hr & _ & _ & Hv & _).
      exists row. subst val. auto. }
    simpl. split; [|reflexivity].
    exists newp, kc,
      (kv ++ [Color.mk (next_id (map Color.id (colors v))) n pid f cur]).
    simpl in *. rewrite Hvc. rewrite <- !app_assoc.
    repeat split; auto.
    + rewrite app_nil_r, app_assoc, map_app. exact Hnd.
    + intros k Hk. apply Hdis. rewrite app_nil_r, app_assoc, map_app in Hk.
      exact Hk.
    + intros c0 Hc0. rewrite app_assoc in Hc0. apply in_app_or in Hc0.
      destruct Hc0 as [Hc0 | [Hc0 | []]]; [now apply Hst|].
      subst c0. exists val. split; [exact Ef|exact Hfrom].
    + intros row Hr. destruct (Hrow row Hr) as (p & Hp1 & Hp2 & Hp3).
      exists p. repeat split; auto.
      rewrite app_nil_r. rewrite Hvc in Hp3.
      rewrite !map_app. rewrite !map_app in Hp3. simpl.
      rewrite <- !app_assoc in Hp3. exact Hp3.
Qed.

Lemma find_named_none (n : string) (l : list Product.t) :
  find (named n) l = None -> existsb (named n) l = false.
Proof.
  intros H. apply not_true_is_false. intros E.
  apply existsb_exists in E. destruct E as [p [Hp Hn]].
  rewrite (find_none _ _ H p Hp) in Hn. discriminate.
Qed.

Lemma nth_error_last {A : Type} (l : list A) (a : A) :
  nth_error (l ++ [a]) (List.length l + 0) = Some a.
Proof.
  rewrite Nat.add_0_r, nth_error_app2, Nat.sub_diag by lia. reflexivity.
Qed.

Lemma product_step_spec (st0 : Store) (done : list Row) (row : Row)
    (s : Session) :
  Inv st0 done done s ->
  match product_step row s with
  | (inr pid, s') =>
      Inv st0 (done ++ [row]) done s' /\ pending s' = []
      /\ exists p, In p (products (view s'))
                   /\ Product.id p = pid
                   /\ Product.name p = urun_adi row
  | (inl e, s') => s' = s /\ bad_price e done
  end.
Proof.
  intros HI. pose proof (flush_spec st0 done done s HI) as HF.
  cbv beta iota delta [product_step db_query autoflush bind].
  destruct (db_flush s) as [[e|[]] s1]; [exact HF|].
  destruct HF as (HI1 & Hpend).
  rewrite first_filter.
  destruct HI1 as (newp & kc & kv & Hcp & Hvp & Hcc & Hvc & Hp & Hnd & Hdis
                   & Hst & Hnew & Hrow).
  pose proof (incl_snoc done row) as Hd.
  destruct (find (named (urun_adi row)) (products (view s1))) as [p|] eqn:E.
  - unfold ret. split; [|split; [exact Hpend|]].
    + exists newp, kc, kv. rewrite Hpend in *.
      repeat split; auto.
      * intros c0 Hc0. eapply stored_from_mono; eauto using incl_refl.
      * intros q Hq. destruct (Hnew q Hq) as (r & Hr1 & Hr2).
        exists r. auto.
    + exists p. destruct (find_some _ _ E) as [Hin Hn].
      apply String.eqb_eq in Hn. auto.
  - destruct s1 as [c v pd ids]. simpl in *. subst pd.
    apply find_named_none in E.
    cbv beta iota zeta delta [db_add db_commit db_flush db_refresh bind].
    simpl. rewrite E. simpl. rewrite nth_error_last.
    simpl in *. rewrite !app_nil_r in *.
    set (p' := Product.mk (next_id (map Product.id (products v)))
                          (urun_adi row)).
    assert (Hincl : incl (products v) (products st0 ++ newp ++ [p'])).
    { rewrite app_assoc, <- Hvp. apply incl_snoc. }
    split; [|split; [reflexivity|]].
    + exists (newp ++ [p']), (kc ++ kv), []. simpl.
      rewrite !app_nil_r in *.
      rewrite Hvp, Hvc, <- !app_assoc.
      repeat split; auto.
      * intros c0 Hc0. eapply stored_from_mono; eauto.
      * intros q Hq. apply in_app_or in Hq. destruct Hq as [Hq | [Hq | []]].
        -- destruct (Hnew q Hq) as (r & Hr1 & Hr2). exists r. auto.
        -- subst q. exists row. split; [|reflexivity].
           apply in_or_app. right. now left.
      * intros r Hr. destruct (Hrow r Hr) as (p & Hp1 & Hp2 & Hp3).
        exists p. repeat split; auto.
        rewrite Hvc in Hp3. exact Hp3.
    + exists p'. split; [|split; reflexivity].
      rewrite Hvp, <- app_assoc. apply in_or_app. right.
      apply in_or_app. right. now left.
Qed.

Lemma find_key_none (n : string) (pid : Z) (l : list Color.t) :
  find (fun c => String.eqb (Color.name c) n && (Color.product_id c =? pid)) l
  = None ->
  ~ In (n, pid) (map color_key l).
Proof.
  intros H Hin. apply in_map_iff in Hin. destruct Hin as [c [Hk Hc]].
  pose proof (find_none _ _ H c Hc) as F. simpl in F.
  unfold color_key in Hk. inversion Hk; subst.
  rewrite String.eqb_refl, Z.eqb_refl in F. discriminate.
Qed.

Lemma find_key_some (n : string) (pid : Z) (l : list Color.t) (c : Color.t) :
  find (fun c => String.eqb (Color.name c) n && (Color.product_id c =? pid)) l
  = Some c ->
  In (n, pid) (map color_key l).
Proof.
  intros H. destruct (find_some _ _ H) as [Hin Hp].
  apply andb_true_iff in Hp. destruct Hp as [Hn Hi].
  apply String.eqb_eq in Hn. apply Z.eqb_eq in Hi.
  apply in_map_iff. exists c. split; [|exact Hin].
  unfold color_key. now rewrite Hn, Hi.
Qed.

Lemma color_step_spec (st0 : Store) (done : list Row) (row : Row) (pid : Z)
    (s : Session) :
  Inv st0 (done ++ [row]) done s -> pending s = [] ->
  (exists p, In p (products (view s))
             /\ Product.id p = pid /\ Product.name p = urun_adi row) ->
  match color_step row pid s with
  | (inr _, s') => Inv st0 (done ++ [row]) (done ++ [row]) s'
  | (inl _, _) => False
  end.
Proof.
  destruct s as [c v pd ids]. simpl. intros HI Hpd (p & Hp1 & Hp2 & Hp3).
  subst pd.
  destruct HI as (newp & kc & kv & Hcp & Hvp & Hcc & Hvc & _ & Hnd & Hdis
                  & Hst & Hnew & Hrow).
  simpl in *. rewrite !app_nil_r in *.
  cbv beta iota delta [color_step db_query autoflush bind db_flush db_add ret].
  simpl. rewrite first_filter.
  destruct (find _ (colors v)) as [c0|] eqn:E.
  - apply find_key_some in E.
    exists newp, kc, kv. simpl. rewrite !app_nil_r.
    repeat split; auto.
    intros r Hr. apply in_app_or in Hr. destruct Hr as [Hr | [Hr | []]].
    + destruct (Hrow r Hr) as (q & Hq1 & Hq2 & Hq3). exists q. auto.
    + subst r. exists p. subst pid. auto.
  - apply find_key_none in E.
    exists newp, kc, kv. simpl.
    repeat split; auto.
    + right. exists (renk row), pid, (fiyat row), (para_birimi row).
      split; [reflexivity|]. exists row, p.
      repeat split; auto. apply in_or_app. right. now left.
    + apply NoDup_app; [exact Hnd|repeat constructor; intros []|].
      intros k Hk [Hk'|[]]. subst k. apply E. rewrite Hvc, map_app.
      apply in_or_app. right. exact Hk.
    + intros k Hk. apply in_app_or in Hk. destruct Hk as [Hk | [Hk | []]].
      * now apply Hdis.
      * subst k. intros Hin. apply E. rewrite Hvc, map_app.
        apply in_or_app. now left.
    + intros r Hr. apply in_app_or in Hr. destruct Hr as [Hr | [Hr | []]].
      * destruct (Hrow r Hr) as (q & Hq1 & Hq2 & Hq3). exists q.
        repeat split; auto. apply in_or_app. now left.
      * subst r. exists p. subst pid. repeat split; auto.
        apply in_or_app. right. now left.
Qed.

Lemma upload_row_spec (st0 : Store) (done : list Row) (row : Row)
    (s : Session) :
  Inv st0 done done s ->
  match upload_row row s with
  | (inr _, s') => Inv st0 (done ++ [row]) (done ++ [row]) s'
  | (inl e, s') => s' = s /\ bad_price e done
  end.
Proof.
  intros HI. rewrite upload_row_steps. unfold bind.
  pose proof (product_step_spec st0 done row s HI) as HP.
  destruct (product_step row s) as [[e|pid] s1]; [exact HP|].
  destruct HP as (HI1 & Hpd & Hp).
  pose proof (color_step_spec st0 done row pid s1 HI1 Hpd Hp) as HC.
  destruct (color_step row pid s1) as [[e|[]] s2]; [contradiction|exact HC].
Qed.

Lemma for_each_spec (st0 : Store) (todo : list Row) :
  forall (done : list Row) (s : Session),
    Inv st0 done done s ->
    match for_each todo upload_row s with
    | (inr _, s') => Inv st0 (done ++ todo) (done ++ todo) s'
    | (inl e, s') =>
        exists before after,
          done ++ todo = before ++ after
          /\ Inv st0 before before s' /\ bad_price e before
    end.
Proof.
  induction todo as [|row todo IH]; intros done s HI; simpl.
  - unfold ret. now rewrite app_nil_r.
  - unfold bind. pose proof (upload_row_spec st0 done row s HI) as HR.
    destruct (upload_row row s) as [[e|[]] s1].
    + destruct HR as (Hs & Hb). subst.
      exists done, (row :: todo). auto.
    + specialize (IH (done ++ [row]) s1 HR).
      rewrite <- app_assoc in IH. exact IH.
Qed.

Lemma commit_spec (st0 : Store) (done : list Row) (s : Session) :
  Inv st0 done done s ->
  match db_commit s with
  | (inr _, s') =>
      Inv st0 done done s' /\ pending s' = [] /\ committed s' = view s'
  | (inl e, s') => s' = s /\ bad_price e done
  end.
Proof.
  intros HI. pose proof (flush_spec st0 done done s HI) as HF.
  unfold db_commit, bind.
  destruct (db_flush s) as [[e|[]] s1]; [exact HF|].
  destruct HF as (HI1 & Hpd). simpl.
  split; [|split; reflexivity].
  destruct HI1 as (newp & kc & kv & Hcp & Hvp & Hcc & Hvc & Hp & Hnd & Hdis
                   & Hst & Hnew & Hrow).
  rewrite Hpd in *. simpl in *.
  exists newp, (kc ++ kv), []. simpl. rewrite !app_nil_r in *.
  rewrite <- ?app_assoc. repeat split; auto.
Qed.

(** The loop, the commit that follows it and the reply. *)
Lemma import_spec {A : Type} (st0 : Store) (cleaned : list Row) (a : A) :
  match (for_each cleaned upload_row ;; db_commit ;; ret a) (get_db st0) with
  | (inr _, s') =>
      Inv st0 cleaned cleaned s' /\ pending s' = [] /\ committed s' = view s'
  | (inl e, s') =>
      exists before after,
        cleaned = before ++ after
        /\ Inv st0 before before s' /\ bad_price e before
  end.
Proof.
  unfold bind.
  pose proof (for_each_spec st0 cleaned [] (get_db st0) (Inv_init st0)) as HL.
  simpl in HL.
  destruct (for_each cleaned upload_row (get_db st0)) as [[e|[]] s1];
    [exact HL|].
  pose proof (commit_spec st0 cleaned s1 HL) as HC.
  destruct (db_commit s1) as [[e|[]] s2]; [|exact HC].
  destruct HC as (Hs & Hb). subst.
  exists cleaned, []. rewrite app_nil_r. auto.
Qed.

Lemma str_strip_inr (cols : list string) (label : string)
    (f : list Cell -> string) :
  str_strip cols label = inr f ->
  forall r, f r = rendered cols label r.
Proof.
  unfold str_strip, rendered, cell_at, cells_at.
  destruct (positions label cols) as [|i [|j l]]; try discriminate.
  intros H r. inversion H. reflexivity.
Qed.

Lemma str_strip_inl (cols : list string) (label : string) (e : Exn) :
  str_strip cols label = inl e -> e = AttributeError.
Proof.
  unfold str_strip.
  destruct (positions label cols) as [|i [|j l]]; intros H; inversion H;
    reflexivity.
Qed.

Lemma iterrows_inr (df : DataFrame) (cleaned : list Row) :
  iterrows df = inr cleaned ->
  cleaned = map (clean_row (columns df))
                (filter (complete (columns df) required_columns) (rows df)).
Proof.
  unfold iterrows.
  destruct (str_strip (columns df) Urun_Adi) as [|f1] eqn:E1; [discriminate|].
  destruct (str_strip (columns df) Renk) as [|f2] eqn:E2; [discriminate|].
  destruct (str_strip (columns df) Para_Birimi) as [|f3] eqn:E3;
    [discriminate|].
  intros H. inversion H. simpl. apply map_ext. intros r. unfold clean_row.
  now rewrite (str_strip_inr _ _ _ E1), (str_strip_inr _ _ _ E2),
    (str_strip_inr _ _ _ E3).
Qed.

Lemma iterrows_inl (df : DataFrame) (e : Exn) :
  iterrows df = inl e -> e = AttributeError.
Proof.
  unfold iterrows.
  destruct (str_strip (columns df) Urun_Adi) as [e1|f1] eqn:E1.
  { intros H. inversion H. subst. eapply str_strip_inl; eauto. }
  destruct (str_strip (columns df) Renk) as [e2|f2] eqn:E2.
  { intros H. inversion H. subst. eapply str_strip_inl; eauto. }
  destruct (str_strip (columns df) Para_Birimi) as [e3|f3] eqn:E3.
  { intros H. inversion H. subst. eapply str_strip_inl; eauto. }
  discriminate.
Qed.

Lemma upload_excel_spec (filename : string) (contents : list Byte.byte)
    (st0 : Store) :
  match upload_excel filename contents (get_db st0) with
  | (inr reply, s') =>
      reply = Reply.mk "Excel başarıyla yüklendi!" None
      /\ exists parsed cleaned,
           read_excel contents = inr parsed
           /\ iterrows (stripped parsed) = inr cleaned
           /\ Inv st0 cleaned cleaned s'
           /\ pending s' = [] /\ committed s' = view s'
  | (inl e, s') =>
      (s' = get_db st0
       /\ (e = AttributeError \/ exists detail, e = HTTPException 400 detail))
      \/ (exists parsed cleaned before after,
            read_excel contents = inr parsed
            /\ iterrows (stripped parsed) = inr cleaned
            /\ cleaned = before ++ after
            /\ Inv st0 before before s' /\ bad_price e before)
  end.
Proof.
  unfold upload_excel.
  destruct (negb (Py.endswith filename ".xlsx")).
  { unfold raise. left. split; [reflexivity|]. right. eauto. }
  destruct (read_excel contents) as [msg|parsed] eqn:Eread.
  { unfold raise. left. split; [reflexivity|]. right. eauto. }
  cbv zeta. fold (stripped parsed).
  destruct (negb (issubset required_columns (columns (stripped parsed)))).
  { unfold raise. left. split; [reflexivity|]. right. eauto. }
  destruct (iterrows (stripped parsed)) as [e|cleaned] eqn:Eit.
  { unfold raise. left. split; [reflexivity|]. left.
    eapply iterrows_inl; eauto. }
  pose proof (import_spec st0 cleaned
                (Reply.mk "Excel başarıyla yüklendi!" None)) as HS.
  destruct ((for_each cleaned upload_row ;; db_commit ;; ret _) (get_db st0))
    as [[e|reply] s'] eqn:Erun.
  - right. destruct HS as (before & after & Hc & HI & Hb).
    exists parsed, cleaned, before, after. auto.
  - assert (reply = Reply.mk "Excel başarıyla yüklendi!" None) as ->.
    { revert Erun. unfold bind, ret.
      destruct (for_each cleaned upload_row (get_db st0)) as [[?|?] ?];
        [discriminate|].
      destruct (db_commit _) as [[?|?] ?]; [discriminate|].
      intros H. now inversion H. }
    split; [reflexivity|]. exists parsed, cleaned.
    destruct HS as (HI & Hp & Hc). auto.
Qed.



(** ** The request handlers *)

Lemma price_of_bound (v : Value) (f : float) :
  to_float v = Some f -> PrimFloat.is_nan f = false -> price_of v = inr f.
Proof. intros H1 H2. unfold price_of. now rewrite H1, H2. Qed.

(** The price of a request body, as the colours table takes it. *)
Lemma price_of_number (f : float) :
  PrimFloat.is_nan f = false -> price_of (Scalar (Float f)) = inr f.
Proof. intros H. unfold price_of, to_float. now rewrite H. Qed.



(** C3, as amended.  POST /products/ with the name of an existing product
    fails on the unique constraint of the store: the [IntegrityError]
    leaves the handler uncaught, so the client sees a server error
    (status 500), and the store is unchanged: no second product of that
    name exists. *)
Theorem add_product_duplicate_name (st : Store) (product : ProductCreate.t) :
  (exists p, In p (products st)
             /\ Product.name p = ProductCreate.name product) ->
  request (add_product product) st = (inl IntegrityError, st)
  /\ status_code (fst (request (add_product product) st)) = 500.
Proof.
  intros H. apply existsb_named in H.
  unfold add_product. run. rewrite H. simpl. split; reflexivity.
Qed.



(** ** The import *)

(** C8.  POST /upload-excel/ answers 400 and leaves the store untouched
    when the file name does not end in .xlsx, when the bytes do not parse,
    or when, the labels stripped, one of the four required columns is
    missing. *)
Theorem upload_excel_rejects (filename : string)
    (contents : list Byte.byte) (st : Store) :
  Py.endswith filename ".xlsx" = false
  \/ (exists e, read_excel contents = inl e)
  \/ (exists parsed,
        read_excel contents = inr parsed
        /\ issubset required_columns (columns (stripped parsed)) = false) ->
  status_code (fst (request (upload_excel filename contents) st)) = 400
  /\ snd (request (upload_excel filename contents) st) = st.
Proof.
  intros H. unfold upload_excel.
  destruct (Py.endswith filename ".xlsx") eqn:Ext; cbn [negb].
  - destruct H as [H | [[e H] | [df [H Hsub]]]]; [discriminate| |].
    + rewrite H. run. split; reflexivity.
    + rewrite H. cbv zeta. fold (stripped df). rewrite Hsub. run.
      split; reflexivity.
  - run. split; reflexivity.
Qed.

Lemma upload_excel_runs (filename : string) (contents : list Byte.byte)
    (parsed : DataFrame) (cleaned : list Row) :
  Py.endswith filename ".xlsx" = true ->
  read_excel contents = inr parsed ->
  issubset required_columns (columns (stripped parsed)) = true ->
  iterrows (stripped parsed) = inr cleaned ->
  upload_excel filename contents
  = (for_each cleaned upload_row ;; db_commit ;;
     ret (Reply.mk "Excel başarıyla yüklendi!" None)).
Proof.
  intros Hext Hread Hsub Hit. unfold upload_excel.
  rewrite Hext, Hread. cbv zeta. fold (stripped parsed).
  rewrite Hsub, Hit. reflexivity.
Qed.

(** C1.  On an empty store, a sheet whose cleaned rows are Shirt/Red at
    10.0 USD, Shirt/Red at 12.0 EUR and Shirt/Blue at 10.0 USD leaves one
    product, Shirt, with two colours: Red at 10.0 USD, from the first row,
    and Blue at 10.0 USD.  The second Red row adds and changes nothing.
    The prices are whatever cells the store binds as 10.0, 12.0 and
    10.0. *)
Theorem first_occurrence_wins (filename : string)
    (contents : list Byte.byte) (parsed : DataFrame) (v1 v2 v3 : Value) :
  Py.endswith filename ".xlsx" = true ->
  read_excel contents = inr parsed ->
  issubset required_columns (columns (stripped parsed)) = true ->
  iterrows (stripped parsed)
  = inr [ mkRow "Shirt" "Red" v1 "USD";
          mkRow "Shirt" "Red" v2 "EUR";
          mkRow "Shirt" "Blue" v3 "USD" ] ->
  to_float v1 = Some 10%float ->
  to_float v2 = Some 12%float ->
  to_float v3 = Some 10%float ->
  request (upload_excel filename contents) empty_store
  = (inr (Reply.mk "Excel başarıyla yüklendi!" None),
     mkStore [Product.mk 1 "Shirt"]
             [Color.mk 1 "Red" 1 10 "USD"; Color.mk 2 "Blue" 1 10 "USD"]).
Proof.
  intros Hext Hread Hsub Hit H1 _ H3.
  rewrite (upload_excel_runs _ _ _ _ Hext Hread Hsub Hit).
  cbv beta iota zeta delta [request for_each upload_row bind db_query
    autoflush db_commit db_flush db_add db_refresh ret raise get_db close].
  simpl. rewrite (price_of_bound v1 10 H1 eq_refl). simpl.
  rewrite (price_of_bound v3 10 H3 eq_refl). reflexivity.
Qed.

Lemma complete_false (cols subset : list string) (r : list Cell) :
  (exists label c,
     In label subset /\ In c (cells_at cols label r) /\ isna c = true) ->
  complete cols subset r = false.
Proof.
  intros (label & c & Hl & Hc & Hna). apply not_true_is_false. intros H.
  unfold complete in H. rewrite forallb_forall in H. specialize (H label Hl).
  rewrite forallb_forall in H. specialize (H c Hc).
  rewrite Hna in H. discriminate.
Qed.

Lemma dropna_skip (subset cols : list string)
    (before after : list (list Cell)) (r : list Cell) :
  complete cols subset r = false ->
  rows (dropna subset (mkFrame cols (before ++ r :: after)))
  = rows (dropna subset (mkFrame cols (before ++ after))).
Proof.
  intros H. unfold dropna. cbn [columns rows].
  rewrite !filter_app. cbn [filter]. rewrite H. reflexivity.
Qed.

(** C2, as amended.  A row with a missing (empty) cell under one of the
    four required labels is skipped: the import of a sheet that has the
    row answers and stores exactly what the import of the sheet without it
    does, so nothing is created from the row and the other rows import as
    they would.  The cells are tested as parsed, before any text is
    stripped. *)
Theorem incomplete_row_is_dropped (filename : string)
    (contents contents' : list Byte.byte) (cols : list string)
    (before after : list (list Cell)) (r : list Cell) (st : Store) :
  read_excel contents = inr (mkFrame cols (before ++ r :: after)) ->
  read_excel contents' = inr (mkFrame cols (before ++ after)) ->
  (exists label c,
     In label required_columns
     /\ In c (cells_at (map Py.strip cols) label r)
     /\ isna c = true) ->
  request (upload_excel filename contents) st
  = request (upload_excel filename contents') st.
Proof.
  intros H1 H2 Hr. apply complete_false in Hr.
  assert (E : iterrows (stripped (mkFrame cols (before ++ r :: after)))
              = iterrows (stripped (mkFrame cols (before ++ after)))).
  { unfold iterrows, stripped. cbn [columns rows].
    rewrite (dropna_skip _ _ _ _ _ Hr). reflexivity. }
  unfold upload_excel. rewrite H1, H2. cbv zeta.
  fold (stripped (mkFrame cols (before ++ r :: after))).
  fold (stripped (mkFrame cols (before ++ after))).
  rewrite E. reflexivity.
Qed.

(** One pass of the loop body, from any session: it fails only in the
    flush that precedes its first lookup, and then changes nothing; a row
    whose product is known commits nothing; a row whose product is new
    commits that product together with everything flushed so far.  The
    colour of the row itself is at most added to the unit of work. *)
Lemma upload_row_commits (row : Row) (s : Session) :
  match upload_row row s with
  | (inl _, s') => s' = s
  | (inr _, s') =>
      exists flushed ids,
        flush_all (pending s) (view s) = inr (flushed, ids)
        /\ (pending s' = []
            \/ exists pid,
                 pending s'
                 = [NewColor (renk row) pid (fiyat row) (para_birimi row)])
        /\ match find (named (urun_adi row)) (products flushed) with
           | Some _ => committed s' = committed s /\ view s' = flushed
           | None =>
               committed s'
               = mkStore
                   (products flushed
                      ++ [Product.mk
                            (next_id (map Product.id (products flushed)))
                            (urun_adi row)])
                   (colors flushed)
               /\ view s' = committed s'
           end
  end.
Proof.
  destruct s as [c v pd ids]. unfold upload_row.
  cbv beta iota zeta delta [bind db_query autoflush db_flush]. simpl.
  destruct (flush_all pd v) as [e|[fl ids']] eqn:EF; [reflexivity|].
  rewrite first_filter. cbn [view products].
  destruct (find (named (urun_adi row)) (products fl)) as [p|] eqn:E.
  - unfold ret. simpl. rewrite first_filter.
    destruct (find _ (colors fl)); simpl.
    + exists fl, ids'. rewrite E. auto.
    + exists fl, ids'. rewrite E. split; [reflexivity|]. split; [|auto].
      right. eexists. reflexivity.
  - pose proof (find_named_none _ _ E) as Ex.
    cbv beta iota zeta delta [db_add db_commit db_flush db_refresh bind].
    simpl. rewrite Ex. simpl. rewrite nth_error_last. simpl.
    rewrite first_filter.
    destruct (find _ (colors fl)); simpl.
    + exists fl, ids'. rewrite E. auto.
    + exists fl, ids'. rewrite E. split; [reflexivity|]. split; [|auto].
      right. eexists. reflexivity.
Qed.

(** C4, as amended.  The import does not commit in one batch.  In the
    loop, a row whose product is new commits that product at once,
    together with the colours added by the rows before it; a row whose
    product is known commits nothing, and the colour of a row is only
    added to the unit of work.  So when the handler stops, with a reply or
    with an exception, every product the transaction sees is committed;
    with a reply the final commit has committed the remaining colours.
    An exception that leaves changes behind comes from a price that the
    colours table refuses, a [StatementError] or an [IntegrityError] that
    the handler does not catch: it names no row, the client sees status
    500, and the product of every row processed before the failure stays
    committed. *)
Theorem upload_excel_commit_points (filename : string)
    (contents : list Byte.byte) (st : Store) :
  (forall (row : Row) (s : Session),
     match upload_row row s with
     | (inl _, s') => s' = s
     | (inr _, s') =>
         exists flushed ids,
           flush_all (pending s) (view s) = inr (flushed, ids)
           /\ (pending s' = []
               \/ exists pid,
                    pending s'
                    = [NewColor (renk row) pid (fiyat row) (para_birimi row)])
           /\ match find (named (urun_adi row)) (products flushed) with
              | Some _ => committed s' = committed s /\ view s' = flushed
              | None =>
                  committed s'
                  = mkStore
                      (products flushed
                         ++ [Product.mk
                               (next_id (map Product.id (products flushed)))
                               (urun_adi row)])
                      (colors flushed)
                  /\ view s' = committed s'
              end
     end)
  /\
  let out := upload_excel filename contents (get_db st) in
  products (committed (snd out)) = products (view (snd out))
  /\ match fst out with
     | inr _ => committed (snd out) = view (snd out) /\ pending (snd out) = []
     | inl e =>
         snd out = get_db st
         \/ ((e = StatementError \/ e = IntegrityError)
             /\ status_code (fst out) = 500
             /\ exists parsed cleaned before after,
                  read_excel contents = inr parsed
                  /\ iterrows (stripped parsed) = inr cleaned
                  /\ cleaned = before ++ after
                  /\ bad_price e before
                  /\ forall row, In row before ->
                       exists p, In p (products (committed (snd out)))
                                 /\ Product.name p = urun_adi row)
     end.
Proof.
  split; [exact upload_row_commits|].
  cbv zeta. pose proof (upload_excel_spec filename contents st) as HS.
  destruct (upload_excel filename contents (get_db st)) as [[e|reply] s'].
  - simpl. destruct HS as [[Hs He] | HS].
    + subst s'. split; [reflexivity|]. now left.
    + destruct HS as (parsed & cleaned & before & after & Hread & Hit & Hc
                      & HI & Hbad).
      destruct HI as (newp & kc & kv & Hcp & Hvp & _ & _ & _ & _ & _ & _ & _
                      & Hrow).
      split; [congruence|]. right.
      pose proof (bad_price_cause _ _ Hbad) as He.
      split; [exact He|]. split; [destruct He; subst e; reflexivity|].
      exists parsed, cleaned, before, after.
      repeat match goal with |- _ /\ _ => split end; auto.
      intros row Hr. destruct (Hrow row Hr) as (p & Hp1 & Hp2 & _).
      exists p. split; [|exact Hp2]. rewrite Hcp, <- Hvp. exact Hp1.
  - simpl. destruct HS as (_ & parsed & cleaned & _ & _ & HI & Hp & Hc).
    split; [now rewrite Hc|]. split; assumption.
Qed.


Lemma in_cleaned (parsed : DataFrame) (cleaned : list Row) (row : Row) :
  iterrows (stripped parsed) = inr cleaned ->
  In row cleaned <->
  exists r, In r (rows parsed)
            /\ complete (columns (stripped parsed)) required_columns r = true
            /\ row = clean_row (columns (stripped parsed)) r.
Proof.
  intros Hit. apply iterrows_inr in Hit. subst cleaned.
  rewrite in_map_iff. split.
  - intros (r & Hr & Hin). apply filter_In in Hin. exists r.
    destruct Hin. auto.
  - intros (r & Hin & Hc & Hr). exists r. split; [auto|].
    apply filter_In. auto.
Qed.


(** ** Colours stay attached to products *)

Lemma next_id_above (ids : list Z) (i : Z) : In i ids -> i < next_id ids.
Proof.
  unfold next_id. induction ids as [|a ids IH]; cbn [fold_right In];
    [contradiction|].
  intros [H | H]; [subst; lia|]. specialize (IH H). lia.
Qed.

Lemma filter_none {A : Type} (f : A -> bool) (l : list A) :
  (forall x, In x l -> f x = false) -> filter f l = [].
Proof.
  induction l as [|a l IH]; simpl; intros H; [reflexivity|].
  rewrite (H a (or_introl eq_refl)). apply IH. intros x Hx. apply H.
  now right.
Qed.

(** X1.  POST /products/ with a name no product carries answers with the
    key of the new product, and GET /products/ then lists that product
    with an empty list of colours, in a store whose colours all belong to
    a product. *)
Theorem created_product_is_listed (st : Store) (product : ProductCreate.t) :
  (forall p, In p (products st) ->
             Product.name p <> ProductCreate.name product) ->
  attached st ->
  let id := next_id (map Product.id (products st)) in
  let created := Product.mk id (ProductCreate.name product) in
  request (add_product product) st
  = (inr (Reply.mk "Ürün eklendi!" (Some id)),
     mkStore (products st ++ [created]) (colors st))
  /\ exists listing,
       fst (request get_products
                    (mkStore (products st ++ [created]) (colors st)))
       = inr listing
       /\ In (created, []) listing.
Proof.
  intros Hname Hatt. cbv zeta.
  assert (E : existsb (named (ProductCreate.name product)) (products st)
              = false).
  { apply not_true_is_false. intros H. apply existsb_named in H.
    destruct H as [p [Hp Hn]]. exact (Hname p Hp Hn). }
  split.
  - unfold add_product. run. rewrite E. reflexivity.
  - eexists. split; [unfold get_products; run; reflexivity|].
    rewrite map_app. apply in_or_app. right. simpl. left. f_equal.
    apply filter_none.
    intros c Hc. apply Z.eqb_neq.
    destruct (Hatt c Hc) as [p [Hp Hid]]. rewrite <- Hid.
    pose proof (next_id_above (map Product.id (products st)) (Product.id p)
                              (in_map _ _ _ Hp)).
    lia.
Qed.

Lemma Inv_attached (st0 : Store) (seen done : list Row) (s : Session) :
  attached st0 -> Inv st0 seen done s -> attached (committed s).
Proof.
  intros Hatt (newp & kc & kv & Hcp & Hvp & Hcc & Hvc & _ & _ & _ & Hst & _).
  intros c Hc. rewrite Hcc in Hc. rewrite Hcp.
  apply in_app_or in Hc. destruct Hc as [Hc | Hc].
  - destruct (Hatt c Hc) as [p [Hp Hid]]. exists p. split; [|exact Hid].
    apply in_or_app. now left.
  - destruct (Hst c) as (v & _ & row & p & _ & _ & _ & _ & Hp & Hid & _).
    { apply in_or_app. now left. }
    exists p. rewrite <- Hvp. auto.
Qed.

(** X2.  No handler orphans a colour: from a store whose colours all
    belong to a product, every request, answered or failed, leaves such a
    store. *)
Theorem colors_stay_attached (st : Store) :
  attached st ->
  (forall product, attached (snd (request (add_product product) st)))
  /\ (forall color, attached (snd (request (add_color color) st)))
  /\ (forall id product,
        attached (snd (request (update_product id product) st)))
  /\ (forall id color, attached (snd (request (update_color id color) st)))
  /\ (forall id, attached (snd (request (delete_product id) st)))
  /\ (forall id, attached (snd (request (delete_color id) st)))
  /\ (forall filename contents,
        attached (snd (request (upload_excel filename contents) st))).
Proof.
  intros Hatt. repeat split.
  - intros product. unfold add_product. run.
    destruct (existsb _ (products st)); simpl; [exact Hatt|].
    intros c Hc. destruct (Hatt c Hc) as [p [Hp Hid]].
    exists p. split; [|exact Hid]. simpl. apply in_or_app. now left.
  - intros color. unfold add_color. run. rewrite first_filter.
    destruct (find _ (products st)) as [q|] eqn:E; simpl;
      [|destruct (int64 _); exact Hatt].
    destruct (find_some _ _ E) as [Hq Hid]. apply Z.eqb_eq in Hid.
    destruct (price_of _) as [e|f]; simpl; [exact Hatt|].
    intros c Hc. simpl in *. apply in_app_or in Hc.
    destruct Hc as [Hc | [Hc | []]]; [now apply Hatt|].
    subst c. exists q. auto.
  - intros id product. unfold update_product. run. rewrite first_filter.
    destruct (find _ (products st)) as [q|] eqn:E; simpl;
      [|destruct (int64 _); exact Hatt].
    destruct (existsb _ (products st)); simpl; [exact Hatt|].
    intros c Hc. destruct (Hatt c Hc) as [p [Hp Hid]]. simpl in *.
    exists (if Product.id p =? Product.id q
            then Product.mk (Product.id q) (ProductCreate.name product)
            else p).
    split.
    + apply in_map_iff. exists p. auto.
    + destruct (Product.id p =? Product.id q) eqn:Ep; [|exact Hid].
      apply Z.eqb_eq in Ep. simpl. congruence.
  - intros id color. unfold update_color. run. rewrite first_filter.
    destruct (find _ (colors st)) as [q|] eqn:E; simpl;
      [|destruct (int64 _); exact Hatt].
    destruct (price_of _) as [e|f]; simpl; [exact Hatt|].
    intros c Hc. simpl in *. apply in_map_iff in Hc.
    destruct Hc as [c0 [Hc0 Hin]]. destruct (Hatt c0 Hin) as [p [Hp Hid]].
    exists p. split; [exact Hp|].
    destruct (Color.id c0 =? Color.id q); subst c; simpl; exact Hid.
  - intros id. unfold delete_product. run. rewrite first_filter.
    destruct (find _ (products st)) as [q|] eqn:E; simpl;
      [|destruct (int64 _); exact Hatt].
    intros c Hc. simpl in *. apply filter_In in Hc. destruct Hc as [Hc Hne].
    destruct (Hatt c Hc) as [p [Hp Hid]]. exists p. split; [|exact Hid].
    apply filter_In. split; [exact Hp|]. now rewrite Hid.
  - intros id. unfold delete_color. run. rewrite first_filter.
    destruct (find _ (colors st)) as [q|] eqn:E; simpl;
      [|destruct (int64 _); exact Hatt].
    intros c Hc. simpl in *. apply filter_In in Hc. destruct Hc as [Hc _].
    now apply Hatt.
  - intros filename contents. rewrite request_snd.
    pose proof (upload_excel_spec filename contents st) as HS.
    destruct (upload_excel filename contents (get_db st)) as [[e|reply] s'].
    + simpl. destruct HS as [[Hs _] | HS]; [subst s'; exact Hatt|].
      destruct HS as (parsed & cleaned & before & after & _ & _ & _ & HI & _).
      eapply Inv_attached; eauto.
    + simpl. destruct HS as (_ & parsed & cleaned & _ & _ & HI & _).
      eapply Inv_attached; eauto.
Qed.

End Properties.

(** * Further properties *)

(** ** Stripping *)

Lemma drop_prefix_some (p l l' : list ascii) :
  Py.drop_prefix p l = Some l' -> l = p ++ l'.
Proof.
  revert l. induction p as [|a p IH]; simpl; intros l H.
  - now inversion H.
  - destruct l as [|b l]; [discriminate|].
    destruct (Ascii.eqb a b) eqn:E; [|discriminate].
    apply Ascii.eqb_eq in E. subst b. f_equal. now apply IH.
Qed.

Lemma drop_prefix_app (p l : list ascii) :
  Py.drop_prefix p (p ++ l) = Some l.
Proof.
  induction p as [|a p IH]; simpl; [reflexivity|].
  now rewrite Ascii.eqb_refl.
Qed.

Lemma drop_one_some (encs : list (list ascii)) (l l' : list ascii) :
  Py.drop_one encs l = Some l' -> exists e, In e encs /\ l = e ++ l'.
Proof.
  induction encs as [|e encs IH]; simpl; [discriminate|].
  destruct (Py.drop_prefix e l) as [r|] eqn:E.
  - intros H. inversion H; subst. exists e. split; [now left|].
    now apply drop_prefix_some.
  - intros H. destruct (IH H) as (e' & He & Hl). exists e'. auto.
Qed.

Lemma drop_one_none (encs : list (list ascii)) (l : list ascii) :
  Py.drop_one encs l = None ->
  forall e l', In e encs -> l <> e ++ l'.
Proof.
  induction encs as [|e0 encs IH]; simpl; intros H e l' He; [contradiction|].
  destruct (Py.drop_prefix e0 l) as [r|] eqn:E; [discriminate|].
  destruct He as [He | He].
  - subst e0. intros Hl. subst l. rewrite drop_prefix_app in E.
    discriminate.
  - now apply IH.
Qed.

Lemma drop_one_prefix (encs : list (list ascii)) (l post : list ascii) :
  Py.drop_one encs (l ++ post) = None -> Py.drop_one encs l = None.
Proof.
  intros H. destruct (Py.drop_one encs l) as [r|] eqn:E; [|reflexivity].
  exfalso. destruct (drop_one_some _ _ _ E) as (e & He & Hl).
  apply (drop_one_none _ _ H e (r ++ post) He).
  now rewrite Hl, <- app_assoc.
Qed.

Lemma drop_while_fixed (n : nat) (encs : list (list ascii))
    (l : list ascii) :
  Py.drop_one encs l = None -> Py.drop_while n encs l = l.
Proof. intros H. destruct n; simpl; [reflexivity|]. now rewrite H. Qed.

Lemma drop_while_done (encs : list (list ascii)) :
  (forall e, In e encs -> e <> []) ->
  forall (n : nat) (l : list ascii),
    (List.length l <= n)%nat ->
    Py.drop_one encs (Py.drop_while n encs l) = None.
Proof.
  intros Hne. induction n as [|n IH]; intros l Hl; simpl.
  - destruct l; [|simpl in Hl; lia].
    destruct (Py.drop_one encs []) as [r|] eqn:E; [|reflexivity].
    destruct (drop_one_some _ _ _ E) as (e & He & Hnil).
    symmetry in Hnil. apply app_eq_nil in Hnil. destruct Hnil as [He0 _].
    exfalso. exact (Hne e He He0).
  - destruct (Py.drop_one encs l) as [r|] eqn:E; [|exact E].
    apply IH. destruct (drop_one_some _ _ _ E) as (e & He & Hl').
    subst l. rewrite length_app in Hl.
    destruct e; [exfalso; exact (Hne [] He eq_refl)|]. simpl in Hl. lia.
Qed.

Lemma drop_while_suffix (encs : list (list ascii)) (n : nat) :
  forall l, exists pre, l = pre ++ Py.drop_while n encs l.
Proof.
  induction n as [|n IH]; intros l; simpl; [now exists []|].
  destruct (Py.drop_one encs l) as [r|] eqn:E; [|now exists []].
  destruct (drop_one_some _ _ _ E) as (e & _ & Hl).
  destruct (IH r) as [pre Hr]. exists (e ++ pre).
  now rewrite <- app_assoc, <- Hr.
Qed.

Lemma encodings_nonempty (e : list ascii) : In e Py.encodings -> e <> [].
Proof.
  intros H He. subst e. vm_compute in H.
  repeat (destruct H as [H | H]; [discriminate|]). exact H.
Qed.

Lemma rev_encodings_nonempty (e : list ascii) :
  In e (map (@rev ascii) Py.encodings) -> e <> [].
Proof.
  intros H He. subst e. vm_compute in H.
  repeat (destruct H as [H | H]; [discriminate|]). exact H.
Qed.

(** A stripped text starts and ends with no whitespace. *)
Lemma strip_is_clean (l : list ascii) :
  Py.drop_one Py.encodings (Py.rstrip (Py.lstrip l)) = None
  /\ Py.drop_one (map (@rev ascii) Py.encodings)
                 (rev (Py.rstrip (Py.lstrip l))) = None.
Proof.
  assert (Hl : Py.drop_one Py.encodings (Py.lstrip l) = None).
  { apply drop_while_done; [apply encodings_nonempty|lia]. }
  set (m := Py.lstrip l) in *. unfold Py.rstrip. rewrite rev_involutive.
  split.
  - destruct (drop_while_suffix (map (@rev ascii) Py.encodings)
                (List.length m) (rev m)) as [pre Hpre].
    apply (drop_one_prefix _ _ (rev pre)).
    rewrite <- rev_app_distr, <- Hpre, rev_involutive. exact Hl.
  - apply drop_while_done; [apply rev_encodings_nonempty|].
    rewrite length_rev. lia.
Qed.

Lemma strip_fixed (t : list ascii) :
  Py.drop_one Py.encodings t = None ->
  Py.drop_one (map (@rev ascii) Py.encodings) (rev t) = None ->
  Py.rstrip (Py.lstrip t) = t.
Proof.
  intros H1 H2. unfold Py.lstrip. rewrite (drop_while_fixed _ _ _ H1).
  unfold Py.rstrip. rewrite (drop_while_fixed _ _ _ H2).
  apply rev_involutive.
Qed.

Lemma strip_idempotent (s : string) : Py.strip (Py.strip s) = Py.strip s.
Proof.
  unfold Py.strip. rewrite list_ascii_of_string_of_list_ascii.
  destruct (strip_is_clean (list_ascii_of_string s)) as [H1 H2].
  now rewrite (strip_fixed _ H1 H2).
Qed.

Section FurtherProperties.

Context {rt : Runtime}.

(** ** What a handler keeps *)

Lemma keeps_ret (P : Session -> Prop) {A : Type} (a : A) : keeps P (ret a).
Proof. intros s H. exact H. Qed.

Lemma keeps_raise (P : Session -> Prop) {A : Type} (e : Exn) :
  keeps P (raise (A := A) e).
Proof. intros s H. exact H. Qed.

Lemma keeps_bind (P : Session -> Prop) {A B : Type} (m : M A)
    (k : A -> M B) :
  keeps P m -> (forall a, keeps P (k a)) -> keeps P (bind m k).
Proof.
  intros Hm Hk s H. unfold bind. specialize (Hm s H).
  destruct (m s) as [[e|a] s1]; simpl in *; [exact Hm|].
  apply Hk. exact Hm.
Qed.

Lemma keeps_for_each (P : Session -> Prop) {A : Type} (xs : list A)
    (body : A -> M unit) :
  (forall x, keeps P (body x)) -> keeps P (for_each xs body).
Proof.
  intros Hb. induction xs as [|x xs IH]; simpl.
  - apply keeps_ret.
  - apply keeps_bind; [apply Hb|]. intros _. exact IH.
Qed.

Lemma NoDup_snoc {A : Type} (l : list A) (a : A) :
  NoDup l -> ~ In a l -> NoDup (l ++ [a]).
Proof.
  intros Hl Ha. apply NoDup_app; [exact Hl|repeat constructor; intros []|].
  intros x Hx [Hx' | []]. subst. contradiction.
Qed.

Lemma NoDup_map_filter {A B : Type} (f : A -> B) (g : A -> bool)
    (l : list A) :
  NoDup (map f l) -> NoDup (map f (filter g l)).
Proof.
  induction l as [|a l IH]; simpl; intros H; [constructor|].
  inversion H as [|? ? Hin Hnd]; subst.
  destruct (g a); simpl; [|now apply IH].
  constructor; [|now apply IH].
  intros Hc. apply Hin. apply in_map_iff in Hc.
  destruct Hc as [x [Hx Hf]]. apply filter_In in Hf.
  apply in_map_iff. exists x. tauto.
Qed.

Lemma next_id_fresh (ids : list Z) : ~ In (next_id ids) ids.
Proof. intros H. apply next_id_above in H. lia. Qed.

Lemma rename_keeps_ids (i : Z) (n : string) (l : list Product.t) :
  map Product.id
      (map (fun p => if Product.id p =? i then Product.mk i n else p) l)
  = map Product.id l.
Proof.
  rewrite map_map. apply map_ext. intros p.
  destruct (Product.id p =? i) eqn:E; [|reflexivity].
  apply Z.eqb_eq in E. simpl. now rewrite E.
Qed.

Lemma rename_keeps_names_unique (i : Z) (n : string) (l : list Product.t) :
  NoDup (map Product.id l) ->
  NoDup (map Product.name l) ->
  existsb (fun p => named n p && negb (Product.id p =? i)) l = false ->
  NoDup (map Product.name
           (map (fun p => if Product.id p =? i then Product.mk i n else p)
                l)).
Proof.
  induction l as [|a l IH]; simpl; intros Hid Hnm Hex; [constructor|].
  inversion Hid as [|? ? Hid1 Hid2]; subst.
  inversion Hnm as [|? ? Hnm1 Hnm2]; subst.
  apply orb_false_iff in Hex. destruct Hex as [Ha Hex].
  constructor; [|now apply IH].
  intros Hin. rewrite map_map in Hin. apply in_map_iff in Hin.
  destruct Hin as [q [Hq Hql]].
  assert (Hqn : named n q && negb (Product.id q =? i) = false).
  { apply not_true_is_false. intros Ht.
    assert (existsb (fun p => named n p && negb (Product.id p =? i)) l
            = true) as Hc.
    { apply existsb_exists. exists q. auto. }
    congruence. }
  destruct (Product.id a =? i) eqn:Ea; destruct (Product.id q =? i) eqn:Eq;
    simpl in *.
  - apply Z.eqb_eq in Ea, Eq. apply Hid1. apply in_map_iff. exists q.
    split; [congruence|exact Hql].
  - rewrite andb_true_r in Hqn. unfold named in Hqn.
    rewrite Hq, String.eqb_refl in Hqn. discriminate.
  - rewrite andb_true_r in Ha. unfold named in Ha.
    rewrite <- Hq, String.eqb_refl in Ha. discriminate.
  - apply Hnm1. apply in_map_iff. exists q. auto.
Qed.

Lemma recolor_keeps_ids (i : Z) (n : string) (f : float) (cur : string)
    (l : list Color.t) :
  map Color.id
      (map (fun c => if Color.id c =? i
                     then Color.mk i n (Color.product_id c) f cur
                     else c) l)
  = map Color.id l.
Proof.
  rewrite map_map. apply map_ext. intros c.
  destruct (Color.id c =? i) eqn:E; [|reflexivity].
  apply Z.eqb_eq in E. simpl. now rewrite E.
Qed.

Lemma named_absent (n : string) (l : list Product.t) :
  existsb (named n) l = false -> ~ In n (map Product.name l).
Proof.
  intros H Hin. apply in_map_iff in Hin. destruct Hin as [p [Hn Hp]].
  assert (existsb (named n) l = true) as Hc.
  { apply existsb_named. exists p. auto. }
  congruence.
Qed.

(** The store refuses what would break its constraints: an operation
    that is flushed leaves a constrained store constrained. *)
Lemma flush_one_constrained (o : Pending) (st st' : Store) (i : Z) :
  constrained st -> flush_one o st = inr (st', i) -> constrained st'.
Proof.
  intros (Hpi & Hpn & Hci) H. destruct o as [n|n pid v cur|j n|j n v cur|j|j];
    simpl in H.
  - destruct (existsb (named n) (products st)) eqn:E; [discriminate|].
    inversion H; subst. unfold constrained. simpl. rewrite !map_app. simpl.
    repeat split; auto.
    + apply NoDup_snoc; [exact Hpi|apply next_id_fresh].
    + apply NoDup_snoc; [exact Hpn|now apply named_absent].
  - destruct (price_of v); [discriminate|].
    inversion H; subst. unfold constrained. simpl. rewrite map_app. simpl.
    repeat split; auto.
    apply NoDup_snoc; [exact Hci|apply next_id_fresh].
  - destruct (existsb _ (products st)) eqn:E; [discriminate|].
    inversion H; subst. unfold constrained. simpl.
    rewrite rename_keeps_ids. repeat split; auto.
    now apply rename_keeps_names_unique.
  - destruct (price_of v); [discriminate|].
    inversion H; subst. unfold constrained. simpl.
    rewrite recolor_keeps_ids. repeat split; auto.
  - inversion H; subst. unfold constrained. simpl.
    repeat split; now apply NoDup_map_filter.
  - inversion H; subst. unfold constrained. simpl.
    repeat split; auto. now apply NoDup_map_filter.
Qed.

Lemma flush_all_constrained (ops : list Pending) :
  forall (st st' : Store) (ids : list Z),
    constrained st -> flush_all ops st = inr (st', ids) -> constrained st'.
Proof.
  induction ops as [|o ops IH]; simpl; intros st st' ids Hc H.
  - inversion H; subst. exact Hc.
  - destruct (flush_one o st) as [e|[st1 i]] eqn:E1; [discriminate|].
    destruct (flush_all ops st1) as [e|[st2 ids2]] eqn:E2; [discriminate|].
    inversion H; subst. eapply IH; [|exact E2].
    eapply flush_one_constrained; eauto.
Qed.

Lemma keeps_db_flush : keeps constrained_session db_flush.
Proof.
  intros s [Hc Hv]. unfold db_flush.
  destruct (flush_all (pending s) (view s)) as [e|[st ids]] eqn:E; simpl.
  - split; assumption.
  - split; [exact Hc|]. eapply flush_all_constrained; eauto.
Qed.

Lemma keeps_db_commit : keeps constrained_session db_commit.
Proof.
  unfold db_commit. apply keeps_bind; [apply keeps_db_flush|].
  intros _ s [Hc Hv]. simpl. split; assumption.
Qed.

Lemma keeps_db_add (o : Pending) : keeps constrained_session (db_add o).
Proof. intros s H. exact H. Qed.

Lemma keeps_db_refresh (obj : nat) : keeps constrained_session (db_refresh obj).
Proof.
  intros s H. unfold db_refresh.
  destruct (nth_error (identity s) obj); exact H.
Qed.

Lemma keeps_db_query {A : Type} (q : Store -> A) :
  keeps constrained_session (db_query q).
Proof.
  unfold db_query, autoflush. apply keeps_bind; [apply keeps_db_flush|].
  intros _ s H. exact H.
Qed.

(** The three shapes the handlers are made of: a write that is committed,
    a creation that is committed and read back, and a lookup by key that
    fails with [e] when it finds nothing. *)
Lemma keeps_write {A : Type} (o : Pending) (a : A) :
  keeps constrained_session (db_add o ;; db_commit ;; ret a).
Proof.
  apply keeps_bind; [apply keeps_db_add|]. intros _.
  apply keeps_bind; [apply keeps_db_commit|]. intros _. apply keeps_ret.
Qed.

Lemma keeps_create {A : Type} (o : Pending) (f : Z -> A) :
  keeps constrained_session
        (obj <- db_add o ;; db_commit ;; id <- db_refresh obj ;; ret (f id)).
Proof.
  apply keeps_bind; [apply keeps_db_add|]. intros obj.
  apply keeps_bind; [apply keeps_db_commit|]. intros _.
  apply keeps_bind; [apply keeps_db_refresh|]. intros id. apply keeps_ret.
Qed.

Lemma keeps_db_get {A : Type} (table : Store -> list A) (key : A -> Z)
    (id : Z) :
  keeps constrained_session (db_get table key id).
Proof.
  unfold db_get. apply keeps_bind; [apply keeps_db_query|].
  intros [a|]; [apply keeps_ret|].
  destruct (int64 id); [apply keeps_ret|apply keeps_raise].
Qed.

Lemma keeps_lookup {A B : Type} (table : Store -> list A) (key : A -> Z)
    (id : Z) (e : Exn) (k : A -> M B) :
  (forall a, keeps constrained_session (k a)) ->
  keeps constrained_session
        (found <- db_get table key id ;;
         match found with
         | None => raise e
         | Some a => k a
         end).
Proof.
  intros Hk. apply keeps_bind; [apply keeps_db_get|].
  intros [a|]; [apply Hk|apply keeps_raise].
Qed.

Lemma keeps_upload_row (row : Row) :
  keeps constrained_session (upload_row row).
Proof.
  unfold upload_row.
  apply keeps_bind; [apply keeps_db_query|]. intros product.
  apply keeps_bind.
  - destruct product as [p|]; [apply keeps_ret|].
    apply keeps_bind; [apply keeps_db_add|]. intros obj.
    apply keeps_bind; [apply keeps_db_commit|]. intros _.
    apply keeps_db_refresh.
  - intros product_id.
    apply keeps_bind; [apply keeps_db_query|]. intros [c|];
      [apply keeps_ret|].
    apply keeps_bind; [apply keeps_db_add|]. intros _. apply keeps_ret.
Qed.

Lemma keeps_upload_excel (filename : string) (contents : list Byte.byte) :
  keeps constrained_session (upload_excel filename contents).
Proof.
  unfold upload_excel.
  destruct (negb (Py.endswith filename ".xlsx")); [apply keeps_raise|].
  destruct (read_excel contents) as [msg|parsed]; [apply keeps_raise|].
  cbv zeta.
  destruct (negb (issubset _ _)); [apply keeps_raise|].
  destruct (iterrows _) as [e|cleaned]; [apply keeps_raise|].
  apply keeps_bind; [apply keeps_for_each, keeps_upload_row|]. intros _.
  apply keeps_bind; [apply keeps_db_commit|]. intros _. apply keeps_ret.
Qed.

Lemma request_keeps {A : Type} (handler : M A) (st : Store) :
  keeps constrained_session handler ->
  constrained st -> constrained (snd (request handler st)).
Proof.
  intros Hk Hc. rewrite request_snd.
  apply (Hk (get_db st)). split; exact Hc.
Qed.

(** X3.  The constraints of models.py hold after every request: from a
    store with unique primary keys and unique product names, each handler,
    whether it answers or fails, leaves such a store. *)
Theorem store_constraints_are_kept (st : Store) :
  constrained st ->
  (forall product, constrained (snd (request (add_product product) st)))
  /\ (forall color, constrained (snd (request (add_color color) st)))
  /\ (forall id product,
        constrained (snd (request (update_product id product) st)))
  /\ (forall id color,
        constrained (snd (request (update_color id color) st)))
  /\ (forall id, constrained (snd (request (delete_product id) st)))
  /\ (forall id, constrained (snd (request (delete_color id) st)))
  /\ (forall filename contents,
        constrained (snd (request (upload_excel filename contents) st))).
Proof.
  intros Hc. repeat match goal with |- _ /\ _ => split end; intros;
    apply request_keeps; try exact Hc.
  - unfold add_product.
    apply (keeps_create _ (fun id => Reply.mk "Ürün eklendi!" (Some id))).
  - unfold add_color. apply keeps_lookup. intros _.
    apply (keeps_create _ (fun id => Reply.mk "Renk eklendi!" (Some id))).
  - unfold update_product. apply keeps_lookup. intros p. apply keeps_write.
  - unfold update_color. apply keeps_lookup. intros c. apply keeps_write.
  - unfold delete_product. apply keeps_lookup. intros p. apply keeps_write.
  - unfold delete_color. apply keeps_lookup. intros c. apply keeps_write.
  - apply keeps_upload_excel.
Qed.

(** ** The handlers by id *)


Lemma find_id_some (id : Z) (l : list Product.t) :
  (exists p, In p l /\ Product.id p = id) ->
  exists q, find (fun p => Product.id p =? id) l = Some q
            /\ Product.id q = id.
Proof.
  intros [p [Hp Hid]].
  destruct (find (fun p => Product.id p =? id) l) as [q|] eqn:E.
  - exists q. split; [reflexivity|].
    destruct (find_some _ _ E) as [_ Hq]. now apply Z.eqb_eq.
  - exfalso. pose proof (find_none _ _ E p Hp) as F. simpl in F.
    apply Z.eqb_neq in F. contradiction.
Qed.

Lemma find_color_id_some (id : Z) (l : list Color.t) :
  (exists c, In c l /\ Color.id c = id) ->
  exists q, find (fun c => Color.id c =? id) l = Some q
            /\ Color.id q = id.
Proof.
  intros [c [Hc Hid]].
  destruct (find (fun c => Color.id c =? id) l) as [q|] eqn:E.
  - exists q. split; [reflexivity|].
    destruct (find_some _ _ E) as [_ Hq]. now apply Z.eqb_eq.
  - exfalso. pose proof (find_none _ _ E c Hc) as F. simpl in F.
    apply Z.eqb_neq in F. contradiction.
Qed.

(** X5.  PUT /products/{id} on an existing product, with a name that no
    product of another id carries, renames the product of that id and
    touches nothing else: the other products and all colours, which refer
    to products by id, are what they were. *)
Theorem update_product_renames (st : Store) (id : Z)
    (product : ProductCreate.t) :
  (exists p, In p (products st) /\ Product.id p = id) ->
  (forall q, In q (products st) ->
             Product.name q = ProductCreate.name product ->
             Product.id q = id) ->
  request (update_product id product) st
  = (inr (Reply.mk "Ürün güncellendi!" None),
     mkStore (map (fun p => if Product.id p =? id
                            then Product.mk (Product.id p)
                                            (ProductCreate.name product)
                            else p)
                  (products st))
             (colors st)).
Proof.
  intros Hex Hfree. destruct (find_id_some _ _ Hex) as (q & E & Hq).
  assert (F : existsb (fun p => named (ProductCreate.name product) p
                                && negb (Product.id p =? id))
                      (products st) = false).
  { apply not_true_is_false. intros H. apply existsb_exists in H.
    destruct H as (p & Hp & Hb). apply andb_true_iff in Hb.
    destruct Hb as [Hn Hi]. apply String.eqb_eq in Hn.
    apply negb_true_iff, Z.eqb_neq in Hi. exact (Hi (Hfree p Hp Hn)). }
  unfold update_product. run. rewrite first_filter, E. simpl.
  rewrite Hq, F. simpl. f_equal. f_equal. apply map_ext. intros a.
  destruct (Product.id a =? id) eqn:Ea; [|reflexivity].
  apply Z.eqb_eq in Ea. now rewrite Ea.
Qed.

(** X6.  PUT /products/{id} with a name that a product of another id
    carries fails on the unique constraint: the [IntegrityError] is not
    caught, the client sees status 500, and nothing is renamed. *)
Theorem update_product_name_conflict (st : Store) (id : Z)
    (product : ProductCreate.t) :
  (exists p, In p (products st) /\ Product.id p = id) ->
  (exists q, In q (products st)
             /\ Product.name q = ProductCreate.name product
             /\ Product.id q <> id) ->
  request (update_product id product) st = (inl IntegrityError, st)
  /\ status_code (fst (request (update_product id product) st)) = 500.
Proof.
  intros Hex (q & Hq & Hn & Hi).
  destruct (find_id_some _ _ Hex) as (p & E & Hp).
  assert (F : existsb (fun p => named (ProductCreate.name product) p
                                && negb (Product.id p =? id))
                      (products st) = true).
  { apply existsb_exists. exists q. split; [exact Hq|].
    apply andb_true_iff. split.
    - unfold named. now apply String.eqb_eq.
    - apply negb_true_iff. now apply Z.eqb_neq. }
  unfold update_product. run. rewrite first_filter, E. simpl.
  rewrite Hp, F. split; reflexivity.
Qed.

(** X7.  DELETE /colors/{id} on an existing colour removes the rows of
    that id from the colours and nothing else: the products are what they
    were, every colour of another id stays, and no colour of that id is
    left. *)
Theorem delete_color_removes_only_it (st : Store) (id : Z) :
  (exists c, In c (colors st) /\ Color.id c = id) ->
  request (delete_color id) st
  = (inr (Reply.mk "Renk silindi!" None),
     mkStore (products st)
             (filter (fun c => negb (Color.id c =? id)) (colors st)))
  /\ forall c,
       In c (colors (snd (request (delete_color id) st)))
       <-> In c (colors st) /\ Color.id c <> id.
Proof.
  intros Hex. destruct (find_color_id_some _ _ Hex) as (q & E & Hq).
  assert (R : request (delete_color id) st
              = (inr (Reply.mk "Renk silindi!" None),
                 mkStore (products st)
                         (filter (fun c => negb (Color.id c =? id))
                                 (colors st)))).
  { unfold delete_color. run. rewrite first_filter, E. simpl.
    now rewrite Hq. }
  rewrite R. split; [reflexivity|]. intros c. simpl.
  rewrite filter_In, negb_true_iff, Z.eqb_neq. reflexivity.
Qed.

(** ** Creating and deleting *)

Lemma filter_all {A : Type} (f : A -> bool) (l : list A) :
  (forall x, In x l -> f x = true) -> filter f l = l.
Proof.
  induction l as [|a l IH]; simpl; intros H; [reflexivity|].
  rewrite (H a (or_introl eq_refl)). f_equal. apply IH. intros x Hx.
  apply H. now right.
Qed.

Lemma store_eta (st : Store) : mkStore (products st) (colors st) = st.
Proof. now destruct st. Qed.

(** X8.  A colour created by POST /colors/, with a price that is a
    number, and then deleted by DELETE /colors/{id}, with the id the first
    request answered, leaves the store exactly as it was before the two
    requests. *)
Theorem add_color_then_delete_color (st : Store) (color : ColorCreate.t) :
  (exists p, In p (products st)
             /\ Product.id p = ColorCreate.product_id color) ->
  PrimFloat.is_nan (ColorCreate.price color) = false ->
  exists id st1,
    request (add_color color) st
    = (inr (Reply.mk "Renk eklendi!" (Some id)), st1)
    /\ request (delete_color id) st1
       = (inr (Reply.mk "Renk silindi!" None), st).
Proof.
  intros Hex Hnan. destruct (find_id_some _ _ Hex) as (q & E & Hq).
  set (id := next_id (map Color.id (colors st))).
  set (new_color := Color.mk id (ColorCreate.name color)
                             (ColorCreate.product_id color)
                             (ColorCreate.price color)
                             (ColorCreate.currency color)).
  exists id, (mkStore (products st) (colors st ++ [new_color])). split.
  - unfold add_color. run. rewrite first_filter, E. simpl.
    rewrite (price_of_number _ Hnan). reflexivity.
  - destruct (find_color_id_some id (colors st ++ [new_color]))
      as (c & F & Hc).
    { exists new_color. split; [|reflexivity].
      apply in_or_app. right. now left. }
    unfold delete_color. run. rewrite first_filter, F. simpl. rewrite Hc.
    rewrite filter_app. simpl. rewrite Z.eqb_refl. simpl.
    rewrite app_nil_r, filter_all, store_eta; [reflexivity|].
    intros x Hx. apply negb_true_iff, Z.eqb_neq.
    pose proof (next_id_above (map Color.id (colors st)) (Color.id x)
                              (in_map _ _ _ Hx)).
    unfold id. lia.
Qed.

(** X9.  A product created by POST /products/ and then deleted by
    DELETE /products/{id}, with the id the first request answered, leaves
    the store exactly as it was, when every colour of the store belongs to
    a product: the cascade finds no colour under the new id. *)
Theorem add_product_then_delete_product (st : Store)
    (product : ProductCreate.t) :
  (forall p, In p (products st) ->
             Product.name p <> ProductCreate.name product) ->
  attached st ->
  exists id st1,
    request (add_product product) st
    = (inr (Reply.mk "Ürün eklendi!" (Some id)), st1)
    /\ request (delete_product id) st1
       = (inr (Reply.mk "Ürün silindi!" None), st).
Proof.
  intros Hname Hatt.
  set (id := next_id (map Product.id (products st))).
  set (created := Product.mk id (ProductCreate.name product)).
  assert (E : existsb (named (ProductCreate.name product)) (products st)
              = false).
  { apply not_true_is_false. intros H. apply existsb_named in H.
    destruct H as [p [Hp Hn]]. exact (Hname p Hp Hn). }
  exists id, (mkStore (products st ++ [created]) (colors st)). split.
  - unfold add_product. run. rewrite E. reflexivity.
  - destruct (find_id_some id (products st ++ [created])) as (c & F & Hc).
    { exists created. split; [|reflexivity].
      apply in_or_app. right. now left. }
    unfold delete_product. run. rewrite first_filter, F. simpl. rewrite Hc.
    rewrite filter_app. simpl. rewrite Z.eqb_refl. simpl.
    rewrite app_nil_r, !filter_all, store_eta; [reflexivity| |].
    + intros x Hx. apply negb_true_iff, Z.eqb_neq.
      destruct (Hatt x Hx) as [p [Hp Hid]]. rewrite <- Hid.
      pose proof (next_id_above (map Product.id (products st))
                                (Product.id p) (in_map _ _ _ Hp)).
      unfold id. lia.
    + intros x Hx. apply negb_true_iff, Z.eqb_neq.
      pose proof (next_id_above (map Product.id (products st))
                                (Product.id x) (in_map _ _ _ Hx)).
      unfold id. lia.
Qed.

(** ** The outcomes of an import *)

Lemma upload_excel_outcome (filename : string) (contents : list Byte.byte)
    (st : Store) :
  (refused filename contents
   /\ status_code (fst (request (upload_excel filename contents) st)) = 400
   /\ snd (request (upload_excel filename contents) st) = st)
  \/ (exists parsed,
        Py.endswith filename ".xlsx" = true
        /\ read_excel contents = inr parsed
        /\ issubset required_columns (columns (stripped parsed)) = true
        /\ ((exists e, iterrows (stripped parsed) = inl e)
            /\ request (upload_excel filename contents) st
               = (inl AttributeError, st)
            \/ exists cleaned,
                 iterrows (stripped parsed) = inr cleaned
                 /\ (fst (request (upload_excel filename contents) st)
                     = inr (Reply.mk "Excel başarıyla yüklendi!" None)
                     \/ exists e,
                          fst (request (upload_excel filename contents) st)
                          = inl e
                          /\ bad_price e cleaned))).
Proof.
  destruct (Py.endswith filename ".xlsx") eqn:Hext.
  2:{ left. split; [now left|]. unfold upload_excel. rewrite Hext.
      run. split; reflexivity. }
  destruct (read_excel contents) as [msg|parsed] eqn:Hread.
  { left. split; [right; left; eauto|]. unfold upload_excel.
    rewrite Hext, Hread. run. split; reflexivity. }
  destruct (issubset required_columns (columns (stripped parsed))) eqn:Hsub.
  2:{ left. split; [right; right; eauto|]. unfold upload_excel.
      rewrite Hext, Hread. cbv zeta. fold (stripped parsed). rewrite Hsub.
      run. split; reflexivity. }
  right. exists parsed. do 2 (split; [reflexivity|]). split; [exact Hsub|].
  destruct (iterrows (stripped parsed)) as [e|cleaned] eqn:Hit.
  - left. split; [eauto|]. apply iterrows_inl in Hit as He. subst e.
    unfold upload_excel. rewrite Hext, Hread. cbv zeta.
    fold (stripped parsed). rewrite Hsub, Hit. reflexivity.
  - right. exists cleaned. split; [reflexivity|].
    rewrite request_fst, (upload_excel_runs _ _ _ _ Hext Hread Hsub Hit).
    pose proof (import_spec st cleaned
                  (Reply.mk "Excel başarıyla yüklendi!" None)) as HS.
    destruct ((for_each cleaned upload_row ;; db_commit ;; ret _)
                (get_db st)) as [[e|reply] s'] eqn:Erun; simpl.
    + right. destruct HS as (before & after & Hc & _ & row & Hr & Hb).
      exists e. split; [reflexivity|]. exists row. split; [|exact Hb].
      subst cleaned. apply in_or_app. now left.
    + left. revert Erun. unfold bind, ret.
      destruct (for_each cleaned upload_row (get_db st)) as [[?|?] ?];
        [discriminate|].
      destruct (db_commit _) as [[?|?] ?]; [discriminate|].
      intros H. now inversion H.
Qed.

(** X10.  POST /upload-excel/ answers 400 exactly when the upload is
    refused before any row is read: the file name does not end in .xlsx,
    the bytes do not parse, or a required column is missing.  Every other
    failure of the import is a server error. *)
Theorem upload_excel_bad_request_iff (filename : string)
    (contents : list Byte.byte) (st : Store) :
  status_code (fst (request (upload_excel filename contents) st)) = 400
  <-> refused filename contents.
Proof.
  destruct (upload_excel_outcome filename contents st)
    as [(Hr & Hs & _) | (parsed & Hext & Hread & Hsub & H)].
  - tauto.
  - split.
    + intros H400. exfalso.
      destruct H as [[_ H] | (cleaned & _ & [H | (e & H & Hb)])];
        rewrite H in H400; simpl in H400; try discriminate.
      destruct (bad_price_cause _ _ Hb); subst e; discriminate.
    + intros [Hr | [[e Hr] | (p & Hr & Hs)]]; exfalso; congruence.
Qed.

Lemma str_strip_fails (cols : list string) (label : string) (e : Exn) :
  str_strip cols label = inl e ->
  List.length (positions label cols) <> 1%nat.
Proof.
  unfold str_strip.
  destruct (positions label cols) as [|i [|j l]]; simpl; intros H;
    [lia|discriminate|lia].
Qed.

Lemma iterrows_fails (df : DataFrame) (e : Exn) :
  iterrows df = inl e ->
  exists label,
    In label [Urun_Adi; Renk; Para_Birimi]
    /\ List.length (positions label (columns df)) <> 1%nat.
Proof.
  unfold iterrows.
  destruct (str_strip (columns df) Urun_Adi) as [e1|f1] eqn:E1.
  { intros _. exists Urun_Adi. split; [simpl; auto|].
    eapply str_strip_fails; eauto. }
  destruct (str_strip (columns df) Renk) as [e2|f2] eqn:E2.
  { intros _. exists Renk. split; [simpl; auto|].
    eapply str_strip_fails; eauto. }
  destruct (str_strip (columns df) Para_Birimi) as [e3|f3] eqn:E3.
  { intros _. exists Para_Birimi. split; [simpl; auto|].
    eapply str_strip_fails; eauto. }
  discriminate.
Qed.

Lemma price_of_fails (v : Value) (e : Exn) :
  price_of v = inl e ->
  (e = StatementError /\ to_float v = None)
  \/ (e = IntegrityError
      /\ exists f, to_float v = Some f /\ PrimFloat.is_nan f = true).
Proof.
  unfold price_of. destruct (to_float v) as [f|].
  - destruct (PrimFloat.is_nan f) eqn:E; intros H; inversion H.
    right. split; [reflexivity|]. exists f. auto.
  - intros H. inversion H. now left.
Qed.

(** X11.  When POST /upload-excel/ ends in a server error, the cause is
    one of three.  Either one of the three text labels is carried by
    several columns once the labels are stripped: the handler stops with
    an [AttributeError] before the loop and the store is untouched.  Or a
    complete row carries a price the [Float] column cannot bind: the
    handler stops with a [StatementError].  Or a complete row carries a
    price that binds as NaN, which the price column, not null, refuses:
    the handler stops with an [IntegrityError]. *)
Theorem upload_excel_server_error_causes (filename : string)
    (contents : list Byte.byte) (st : Store) :
  status_code (fst (request (upload_excel filename contents) st)) = 500 ->
  exists parsed,
    read_excel contents = inr parsed
    /\ ((request (upload_excel filename contents) st
         = (inl AttributeError, st)
         /\ exists label,
              In label [Urun_Adi; Renk; Para_Birimi]
              /\ List.length (positions label (columns (stripped parsed)))
                 <> 1%nat)
        \/ (fst (request (upload_excel filename contents) st)
            = inl StatementError
            /\ exists r,
                 In r (rows parsed)
                 /\ complete (columns (stripped parsed)) required_columns r
                    = true
                 /\ to_float (value_at (columns (stripped parsed)) Fiyat r)
                    = None)
        \/ (fst (request (upload_excel filename contents) st)
            = inl IntegrityError
            /\ exists r f,
                 In r (rows parsed)
                 /\ complete (columns (stripped parsed)) required_columns r
                    = true
                 /\ to_float (value_at (columns (stripped parsed)) Fiyat r)
                    = Some f
                 /\ PrimFloat.is_nan f = true)).
Proof.
  intros H500.
  destruct (upload_excel_outcome filename contents st)
    as [(_ & Hs & _) | (parsed & Hext & Hread & Hsub & H)]; [congruence|].
  exists parsed. split; [exact Hread|].
  destruct H as [[[e He] H] | (cleaned & Hit & [H | (e & H & Hb)])].
  - left. split; [exact H|]. eapply iterrows_fails; eauto.
  - rewrite H in H500. discriminate.
  - right. destruct Hb as (row & Hr & Hbad).
    apply (in_cleaned parsed cleaned _ Hit) in Hr.
    destruct Hr as (r & Hr1 & Hr2 & Hr3). subst row.
    apply price_of_fails in Hbad. simpl in Hbad.
    destruct Hbad as [[He Hf] | (He & f & Hf & Hn)]; subst e.
    + left. split; [exact H|]. exists r. auto.
    + right. split; [exact H|]. exists r, f. auto.
Qed.

(** ** Importing twice *)

Lemma find_named_unique (l : list Product.t) (p : Product.t) :
  NoDup (map Product.name l) -> In p l ->
  find (named (Product.name p)) l = Some p.
Proof.
  induction l as [|a l IH]; simpl; intros Hnd Hin; [contradiction|].
  inversion Hnd as [|? ? Ha Hl]; subst. unfold named at 1.
  destruct Hin as [Hin | Hin].
  - subst a. now rewrite String.eqb_refl.
  - destruct (String.eqb (Product.name a) (Product.name p)) eqn:E.
    + apply String.eqb_eq in E. exfalso. apply Ha. rewrite E.
      now apply in_map.
    + now apply IH.
Qed.

Lemma find_key_in (n : string) (pid : Z) (l : list Color.t) :
  In (n, pid) (map color_key l) ->
  exists c,
    find (fun c => String.eqb (Color.name c) n && (Color.product_id c =? pid))
         l = Some c.
Proof.
  intros Hin.
  destruct (find (fun c => String.eqb (Color.name c) n
                           && (Color.product_id c =? pid)) l)
    as [c|] eqn:E; [eauto|].
  exfalso. exact (find_key_none _ _ _ E Hin).
Qed.

Lemma upload_row_settled (row : Row) (c v : Store) (ids : list Z) :
  settled v row ->
  exists ids',
    upload_row row (mkSession c v [] ids) = (inr tt, mkSession c v [] ids').
Proof.
  intros (p & Hp & Hk). destruct (find_key_in _ _ _ Hk) as [k Hfk].
  cbv beta iota zeta delta [upload_row bind db_query autoflush db_flush ret].
  simpl. rewrite first_filter, Hp. simpl. rewrite first_filter, Hfk.
  eexists. reflexivity.
Qed.

Lemma for_each_settled (todo : list Row) (c v : Store) :
  (forall row, In row todo -> settled v row) ->
  forall ids,
  exists ids',
    for_each todo upload_row (mkSession c v [] ids)
    = (inr tt, mkSession c v [] ids').
Proof.
  induction todo as [|row todo IH]; intros Hs ids; simpl.
  - eexists. reflexivity.
  - destruct (upload_row_settled row c v ids (Hs row (or_introl eq_refl)))
      as [ids1 H1].
    destruct (IH (fun r Hr => Hs r (or_intror Hr)) ids1) as [ids2 H2].
    exists ids2. unfold bind. now rewrite H1.
Qed.

(** X13.  An import that was answered can be repeated: on the store it
    left, the same upload is answered again and changes nothing, when the
    store it started from has the constraints of models.py. *)
Theorem upload_excel_is_idempotent (filename : string)
    (contents : list Byte.byte) (st st1 : Store) (reply : Reply.t) :
  constrained st ->
  request (upload_excel filename contents) st = (inr reply, st1) ->
  request (upload_excel filename contents) st1 = (inr reply, st1).
Proof.
  intros Hc Hrun.
  assert (Hc1 : constrained st1).
  { pose proof (request_keeps _ st (keeps_upload_excel filename contents) Hc)
      as H. now rewrite Hrun in H. }
  destruct (upload_excel_outcome filename contents st)
    as [(_ & Hs & _) | (parsed & Hext & Hread & Hsub & H)].
  { rewrite Hrun in Hs. discriminate. }
  destruct H as [[_ H] | (cleaned & Hit & _)]; [congruence|].
  revert Hrun. unfold request.
  rewrite (upload_excel_runs _ _ _ _ Hext Hread Hsub Hit).
  pose proof (import_spec st cleaned
                (Reply.mk "Excel başarıyla yüklendi!" None)) as HS.
  destruct ((for_each cleaned upload_row ;; db_commit ;; ret _) (get_db st))
    as [[e|reply'] s'] eqn:Erun; [discriminate|].
  intros Hrun. inversion Hrun; subst reply' st1. clear Hrun.
  destruct HS as (HI & Hpend & Hcv).
  assert (Hset : forall row, In row cleaned -> settled (close s') row).
  { destruct HI as (newp & kc & kv & _ & _ & _ & _ & _ & _ & _ & _ & _
                    & Hrow).
    intros row Hr. destruct (Hrow row Hr) as (p & Hp1 & Hp2 & Hp3).
    rewrite Hpend, app_nil_r in Hp3. unfold close. rewrite Hcv.
    exists p. split; [|exact Hp3]. rewrite <- Hp2.
    apply find_named_unique; [|exact Hp1].
    destruct Hc1 as (_ & Hn & _). unfold close in Hn. now rewrite Hcv in Hn. }
  destruct (for_each_settled cleaned (close s') (close s') Hset [])
    as [ids Hloop].
  assert (reply = Reply.mk "Excel başarıyla yüklendi!" None) as ->.
  { revert Erun. unfold bind, ret.
    destruct (for_each cleaned upload_row (get_db st)) as [[?|?] ?];
      [discriminate|].
    destruct (db_commit _) as [[?|?] ?]; [discriminate|].
    intros H. now inversion H. }
  unfold bind at 1. unfold get_db. rewrite Hloop.
  reflexivity.
Qed.

(** X14.  The labels are matched as stripped: a sheet whose column labels
    carry leading or trailing whitespace imports exactly as the same
    sheet with the labels trimmed. *)
Theorem padded_labels_are_trimmed (filename : string)
    (contents contents' : list Byte.byte) (cols : list string)
    (data : list (list Cell)) (st : Store) :
  read_excel contents = inr (mkFrame cols data) ->
  read_excel contents' = inr (mkFrame (map Py.strip cols) data) ->
  request (upload_excel filename contents) st
  = request (upload_excel filename contents') st.
Proof.
  intros H1 H2. unfold upload_excel. rewrite H1, H2. simpl columns.
  simpl rows. rewrite map_map.
  rewrite (map_ext (fun x => Py.strip (Py.strip x)) Py.strip strip_idempotent).
  reflexivity.
Qed.

Lemma cleaned_rows_are_trimmed (parsed : DataFrame) (cleaned : list Row)
    (row : Row) :
  iterrows (stripped parsed) = inr cleaned -> In row cleaned -> trimmed row.
Proof.
  intros Hit Hr. apply (in_cleaned parsed cleaned _ Hit) in Hr.
  destruct Hr as (r & _ & _ & Hr). subst row. unfold trimmed, clean_row.
  simpl. unfold rendered. now rewrite !strip_idempotent.
Qed.

Lemma Inv_appends_trimmed (st0 : Store) (seen done : list Row)
    (s : Session) :
  (forall row, In row seen -> trimmed row) ->
  Inv st0 seen done s ->
  exists new_products new_colors,
    products (committed s) = products st0 ++ new_products
    /\ colors (committed s) = colors st0 ++ new_colors
    /\ (forall p, In p new_products ->
                  Py.strip (Product.name p) = Product.name p)
    /\ (forall c, In c new_colors ->
                  Py.strip (Color.name c) = Color.name c
                  /\ Py.strip (Color.currency c) = Color.currency c).
Proof.
  intros Ht (newp & kc & kv & Hcp & _ & Hcc & _ & _ & _ & _ & Hst & Hnew & _).
  exists newp, kc. repeat split; auto.
  - intros p Hp. destruct (Hnew p Hp) as (row & Hr & Hn).
    rewrite Hn. apply (Ht row Hr).
  - destruct (Hst c) as (v & _ & row & p & Hr & Hn & _).
    { apply in_or_app. now left. }
    rewrite Hn. apply (Ht row Hr).
  - destruct (Hst c) as (v & _ & row & p & Hr & _ & Hcur & _).
    { apply in_or_app. now left. }
    rewrite Hcur. apply (Ht row Hr).
Qed.

(** X12.  POST /upload-excel/ only appends: whether it answers or fails,
    the products and the colours of the store it started from are still
    there, unchanged and in their places, followed by what the import
    created; it never updates or deletes a row.  The product names, colour
    names and currencies it creates carry no leading or trailing
    whitespace. *)
Theorem upload_excel_appends_trimmed_rows (filename : string)
    (contents : list Byte.byte) (st : Store) :
  exists new_products new_colors,
    products (snd (request (upload_excel filename contents) st))
    = products st ++ new_products
    /\ colors (snd (request (upload_excel filename contents) st))
       = colors st ++ new_colors
    /\ (forall p, In p new_products ->
                  Py.strip (Product.name p) = Product.name p)
    /\ (forall c, In c new_colors ->
                  Py.strip (Color.name c) = Color.name c
                  /\ Py.strip (Color.currency c) = Color.currency c).
Proof.
  rewrite request_snd.
  pose proof (upload_excel_spec filename contents st) as HS.
  destruct (upload_excel filename contents (get_db st)) as [[e|reply] s'];
    simpl.
  - destruct HS as [[Hs _] | HS].
    + subst s'. exists [], []. simpl. rewrite !app_nil_r.
      repeat split; auto; contradiction.
    + destruct HS as (parsed & cleaned & before & after & _ & Hit & Hc & HI
                      & _).
      apply (Inv_appends_trimmed st before before); [|exact HI].
      intros row Hr. apply (cleaned_rows_are_trimmed parsed cleaned _ Hit).
      subst cleaned. apply in_or_app. now left.
  - destruct HS as (_ & parsed & cleaned & _ & Hit & HI & _).
    apply (Inv_appends_trimmed st cleaned cleaned); [|exact HI].
    intros row Hr. exact (cleaned_rows_are_trimmed parsed cleaned _ Hit Hr).
Qed.

(** ** Listing *)

Lemma same_id_same_product (l : list Product.t) (p q : Product.t) :
  NoDup (map Product.id l) -> In p l -> In q l ->
  Product.id p = Product.id q -> p = q.
Proof.
  induction l as [|a l IH]; simpl; intros Hnd Hp Hq Hid; [contradiction|].
  inversion Hnd as [|? ? Ha Hl]; subst.
  destruct Hp as [Hp | Hp]; destruct Hq as [Hq | Hq]; subst.
  - reflexivity.
  - exfalso. apply Ha. rewrite Hid. now apply in_map.
  - exfalso. apply Ha. rewrite <- Hid. now apply in_map.
  - now apply IH.
Qed.

(** X15.  GET /products/ changes nothing and lists the products of the
    store in their order, each with exactly the colours that refer to it;
    when the product ids are unique, no colour is listed under two
    products. *)
Theorem get_products_lists_colors_by_product (st : Store) :
  NoDup (map Product.id (products st)) ->
  exists listing,
    request get_products st = (inr listing, st)
    /\ map fst listing = products st
    /\ (forall p cs c,
          In (p, cs) listing ->
          (In c cs <-> In c (colors st)
                       /\ Color.product_id c = Product.id p))
    /\ (forall p p' cs cs' c,
          In (p, cs) listing -> In (p', cs') listing ->
          In c cs -> In c cs' -> p = p').
Proof.
  intros Hnd.
  set (entry := fun p : Product.t =>
         (p, filter (fun c => Color.product_id c =? Product.id p)
                    (colors st))).
  assert (Hentry : forall p cs, In (p, cs) (map entry (products st)) ->
            In p (products st)
            /\ cs = filter (fun c => Color.product_id c =? Product.id p)
                           (colors st)).
  { intros p cs H. apply in_map_iff in H. destruct H as (q & Hq & Hin).
    unfold entry in Hq. inversion Hq; subst. auto. }
  exists (map entry (products st)). split; [reflexivity|]. split; [|split].
  - rewrite map_map. simpl. apply map_id.
  - intros p cs c H. destruct (Hentry p cs H) as [_ Hcs]. subst cs.
    rewrite filter_In, Z.eqb_eq. reflexivity.
  - intros p p' cs cs' c H H' Hc Hc'.
    destruct (Hentry p cs H) as [Hp Hcs].
    destruct (Hentry p' cs' H') as [Hp' Hcs']. subst cs cs'.
    apply filter_In in Hc, Hc'. destruct Hc as [_ Hc].
    destruct Hc' as [_ Hc']. apply Z.eqb_eq in Hc, Hc'.
    apply (same_id_same_product (products st)); auto. congruence.
Qed.

(** X16.  A colour created by POST /colors/, with a price that is a
    number, is what GET /colors/ then shows last: the colours the store
    had, followed by the new one with the answered id and the name,
    product, price and currency of the request. *)
Theorem add_color_is_listed (st : Store) (color : ColorCreate.t) :
  (exists p, In p (products st)
             /\ Product.id p = ColorCreate.product_id color) ->
  PrimFloat.is_nan (ColorCreate.price color) = false ->
  exists id st1,
    request (add_color color) st
    = (inr (Reply.mk "Renk eklendi!" (Some id)), st1)
    /\ request get_colors st1
       = (inr (colors st
               ++ [Color.mk id (ColorCreate.name color)
                            (ColorCreate.product_id color)
                            (ColorCreate.price color)
                            (ColorCreate.currency color)]),
          st1).
Proof.
  intros Hex Hnan. destruct (find_id_some _ _ Hex) as (q & E & Hq).
  eexists. eexists. split.
  - unfold add_color. run. rewrite first_filter, E. simpl.
    rewrite (price_of_number _ Hnan). reflexivity.
  - reflexivity.
Qed.

End FurtherProperties.

(** * Concrete runs *)

(** The example of C1, run: the sheet is [shirt_sheet]. *)
Lemma first_occurrence_wins_witness :
  request (upload_excel (rt := example_runtime shirt_sheet shirt_sheet)
                        "urunler.xlsx" [])
          empty_store
  = (inr (Reply.mk "Excel başarıyla yüklendi!" None),
     mkStore [Product.mk 1 "Shirt"]
             [Color.mk 1 "Red" 1 10 "USD"; Color.mk 2 "Blue" 1 10 "USD"]).
Proof.
  apply (first_occurrence_wins
           (rt := example_runtime shirt_sheet shirt_sheet)
           "urunler.xlsx" [] shirt_sheet
           (Scalar (Float 10)) (Scalar (Float 12)) (Scalar (Int 10)));
    reflexivity.
Defined.

(** Against C2 as stated: a product name of three spaces is not missing,
    so the row is kept; stripped, it creates a product with the empty name
    and a colour under it, and the store differs from the one the sheet
    without that row ([one_row_sheet]) leaves. *)
Lemma blank_name_row_is_imported :
  request (upload_excel (rt := example_runtime blank_name_sheet one_row_sheet)
                        "urunler.xlsx" [])
          empty_store
  = (inr (Reply.mk "Excel başarıyla yüklendi!" None),
     mkStore [Product.mk 1 ""; Product.mk 2 "Shirt"]
             [Color.mk 1 "Red" 1 10 "USD"; Color.mk 2 "Blue" 2 10 "USD"])
  /\ request (upload_excel
                (rt := example_runtime blank_name_sheet one_row_sheet)
                "urunler.xlsx" [Byte.x00])
             empty_store
     = (inr (Reply.mk "Excel başarıyla yüklendi!" None),
        mkStore [Product.mk 1 "Shirt"] [Color.mk 1 "Blue" 1 10 "USD"]).
Proof. split; reflexivity. Qed.

(** C2 as amended, run: the first row of [missing_name_sheet] has an empty
    product name cell, and the import equals that of [one_row_sheet]. *)
Lemma incomplete_row_is_dropped_witness :
  request (upload_excel
             (rt := example_runtime missing_name_sheet one_row_sheet)
             "urunler.xlsx" [])
          empty_store
  = request (upload_excel
               (rt := example_runtime missing_name_sheet one_row_sheet)
               "urunler.xlsx" [Byte.x00])
            empty_store.
Proof.
  apply (incomplete_row_is_dropped
           (rt := example_runtime missing_name_sheet one_row_sheet)
           "urunler.xlsx" [] [Byte.x00]
           [Urun_Adi; Renk; Fiyat; Para_Birimi] []
           [[Text "Shirt"; Text "Blue"; Float 10; Text "USD"]]
           [NaN; Text "Red"; Float 10; Text "USD"]).
  - reflexivity.
  - reflexivity.
  - exists Urun_Adi, NaN. split; [simpl; auto|].
    split; [vm_compute; auto|reflexivity].
Defined.

(** Against C3 as stated: the second product named Shirt is refused with
    an uncaught [IntegrityError], status 500, not a 409. *)
Lemma duplicate_product_is_server_error :
  request (add_product (rt := no_sheet) (ProductCreate.mk "Shirt"))
          shirt_store
  = (inl IntegrityError, shirt_store)
  /\ status_code (fst (request (add_product (rt := no_sheet)
                                            (ProductCreate.mk "Shirt"))
                               shirt_store)) = 500.
Proof. split; reflexivity. Qed.

(** C3 as amended, run on [shirt_store]. *)
Lemma add_product_duplicate_name_witness :
  request (add_product (rt := no_sheet) (ProductCreate.mk "Shirt"))
          shirt_store
  = (inl IntegrityError, shirt_store).
Proof.
  apply (add_product_duplicate_name (rt := no_sheet) shirt_store
                                    (ProductCreate.mk "Shirt")).
  exists (Product.mk 1 "Shirt"). split; [simpl; auto|reflexivity].
Defined.

(** Against C4 as stated: the second row of [bad_price_sheet] has the
    price "abc".  The import fails with an uncaught [StatementError], which
    names no row, and yet both products and the first colour are in the
    store: they were committed while the loop ran. *)
Lemma import_commits_before_it_fails :
  request (upload_excel
             (rt := example_runtime bad_price_sheet bad_price_sheet)
             "urunler.xlsx" [])
          empty_store
  = (inl StatementError,
     mkStore [Product.mk 1 "Shirt"; Product.mk 2 "Hat"]
             [Color.mk 1 "Red" 1 10 "USD"])
  /\ status_code (A := Reply.t) (inl StatementError) = 500.
Proof. split; reflexivity. Qed.

(** The same with the price nan, written as text in [nan_price_sheet]:
    the price binds, the price column refuses it, and the import fails
    with an uncaught [IntegrityError] after both products and the first
    colour were committed. *)
Lemma import_fails_on_nan_price :
  request (upload_excel
             (rt := example_runtime nan_price_sheet nan_price_sheet)
             "urunler.xlsx" [])
          empty_store
  = (inl IntegrityError,
     mkStore [Product.mk 1 "Shirt"; Product.mk 2 "Hat"]
             [Color.mk 1 "Red" 1 10 "USD"])
  /\ status_code (A := Reply.t) (inl IntegrityError) = 500.
Proof. split; reflexivity. Qed.







(** C8, run: a file name without the extension, and a sheet without the
    currency column. *)
Lemma upload_excel_rejects_witness :
  (status_code
     (fst (request (upload_excel (rt := no_sheet) "urunler.csv" [])
                   shirt_store)) = 400
   /\ snd (request (upload_excel (rt := no_sheet) "urunler.csv" [])
                   shirt_store) = shirt_store)
  /\
  (status_code
     (fst (request (upload_excel
                      (rt := example_runtime no_currency_sheet (sheet []))
                      "urunler.xlsx" [])
                   shirt_store)) = 400
   /\ snd (request (upload_excel
                      (rt := example_runtime no_currency_sheet (sheet []))
                      "urunler.xlsx" [])
                   shirt_store) = shirt_store).
Proof.
  split.
  - apply (upload_excel_rejects (rt := no_sheet) "urunler.csv" []
                                shirt_store).
    left. reflexivity.
  - apply (upload_excel_rejects
             (rt := example_runtime no_currency_sheet (sheet []))
             "urunler.xlsx" [] shirt_store).
    right. right. exists no_currency_sheet. split; reflexivity.
Defined.





Lemma shirt_store_attached : attached shirt_store.
Proof.
  intros c [Hc | []]. subst c. exists (Product.mk 1 "Shirt").
  split; [simpl; auto|reflexivity].
Defined.

(** X1, run: Hat is created in [shirt_store] with the key 2. *)
Lemma created_product_is_listed_witness :
  request (add_product (rt := no_sheet) (ProductCreate.mk "Hat")) shirt_store
  = (inr (Reply.mk "Ürün eklendi!" (Some 2)),
     mkStore [Product.mk 1 "Shirt"; Product.mk 2 "Hat"]
             [Color.mk 1 "Red" 1 10 "USD"]).
Proof.
  apply (created_product_is_listed (rt := no_sheet) shirt_store
                                   (ProductCreate.mk "Hat")).
  - intros p [Hp | []]. subst p. simpl. discriminate.
  - exact shirt_store_attached.
Defined.

(** X2, run: deleting the only product of [shirt_store] leaves no orphan. *)
Lemma colors_stay_attached_witness :
  attached (snd (request (delete_product (rt := no_sheet) 1) shirt_store)).
Proof.
  apply (colors_stay_attached (rt := no_sheet) shirt_store
                              shirt_store_attached).
Defined.

(** ** Further runs *)

Lemma shirt_store_constrained : constrained shirt_store.
Proof.
  unfold constrained, shirt_store. simpl.
  repeat split; repeat constructor; intros [].
Defined.

(** X3, run: after Hat is added to [shirt_store] the constraints hold. *)
Lemma store_constraints_are_kept_witness :
  constrained
    (snd (request (add_product (rt := no_sheet) (ProductCreate.mk "Hat"))
                  shirt_store)).
Proof.
  apply (store_constraints_are_kept (rt := no_sheet) shirt_store
                                    shirt_store_constrained).
Defined.


(** X5, run: product 1 of [two_product_store] becomes Tee. *)
Lemma update_product_renames_witness :
  request (update_product (rt := no_sheet) 1 (ProductCreate.mk "Tee"))
          two_product_store
  = (inr (Reply.mk "Ürün güncellendi!" None),
     mkStore [Product.mk 1 "Tee"; Product.mk 2 "Hat"]
             [Color.mk 1 "Red" 1 10 "USD"]).
Proof.
  apply (update_product_renames (rt := no_sheet) two_product_store 1
                                (ProductCreate.mk "Tee")).
  - exists (Product.mk 1 "Shirt"). split; [simpl; auto|reflexivity].
  - intros q [Hq | [Hq | []]]; subst q; simpl; discriminate.
Defined.

(** X6, run: product 2 of [two_product_store] cannot become Shirt. *)
Lemma update_product_name_conflict_witness :
  request (update_product (rt := no_sheet) 2 (ProductCreate.mk "Shirt"))
          two_product_store
  = (inl IntegrityError, two_product_store).
Proof.
  apply (update_product_name_conflict (rt := no_sheet) two_product_store 2
                                      (ProductCreate.mk "Shirt")).
  - exists (Product.mk 2 "Hat"). split; [simpl; auto|reflexivity].
  - exists (Product.mk 1 "Shirt").
    split; [simpl; auto|]. split; [reflexivity|simpl; lia].
Defined.

(** X7, run: colour 1 of [two_color_store] is deleted, colour 2 stays. *)
Lemma delete_color_removes_only_it_witness :
  request (delete_color (rt := no_sheet) 1) two_color_store
  = (inr (Reply.mk "Renk silindi!" None),
     mkStore [Product.mk 1 "Shirt"] [Color.mk 2 "Blue" 1 10 "USD"]).
Proof.
  apply (delete_color_removes_only_it (rt := no_sheet) two_color_store 1).
  exists (Color.mk 1 "Red" 1 10 "USD"). split; [simpl; auto|reflexivity].
Defined.

(** X8, run on [shirt_store]. *)
Lemma add_color_then_delete_color_witness :
  exists id st1,
    request (add_color (rt := no_sheet) (ColorCreate.mk 1 "Blue" 9 "EUR"))
            shirt_store
    = (inr (Reply.mk "Renk eklendi!" (Some id)), st1)
    /\ request (delete_color (rt := no_sheet) id) st1
       = (inr (Reply.mk "Renk silindi!" None), shirt_store).
Proof.
  apply (add_color_then_delete_color (rt := no_sheet) shirt_store
                                     (ColorCreate.mk 1 "Blue" 9 "EUR")).
  - exists (Product.mk 1 "Shirt"). split; [simpl; auto|reflexivity].
  - reflexivity.
Defined.

(** X9, run on [shirt_store]. *)
Lemma add_product_then_delete_product_witness :
  exists id st1,
    request (add_product (rt := no_sheet) (ProductCreate.mk "Hat"))
            shirt_store
    = (inr (Reply.mk "Ürün eklendi!" (Some id)), st1)
    /\ request (delete_product (rt := no_sheet) id) st1
       = (inr (Reply.mk "Ürün silindi!" None), shirt_store).
Proof.
  apply (add_product_then_delete_product (rt := no_sheet) shirt_store
                                         (ProductCreate.mk "Hat")).
  - intros p [Hp | []]. subst p. simpl. discriminate.
  - exact shirt_store_attached.
Defined.

(** X11, run: the import of [bad_price_sheet] ends in a server error, and
    a row with a price that cannot be bound is found. *)
Lemma upload_excel_server_error_causes_witness :
  exists r,
    In r (rows bad_price_sheet)
    /\ to_float (rt := example_runtime bad_price_sheet bad_price_sheet)
                (value_at (columns bad_price_sheet) Fiyat r) = None.
Proof.
  destruct (upload_excel_server_error_causes
              (rt := example_runtime bad_price_sheet bad_price_sheet)
              "urunler.xlsx" [] empty_store eq_refl)
    as (parsed & Hread
        & [[H _] | [(_ & r & Hr & _ & Hbad) | (H & _)]]).
  - discriminate H.
  - inversion Hread; subst parsed. exists r. split; [exact Hr|exact Hbad].
  - discriminate H.
Defined.

(** X13, run: [shirt_sheet] imported a second time changes nothing. *)
Lemma upload_excel_is_idempotent_witness :
  request (upload_excel (rt := example_runtime shirt_sheet shirt_sheet)
                        "urunler.xlsx" [])
          (mkStore [Product.mk 1 "Shirt"]
                   [Color.mk 1 "Red" 1 10 "USD"; Color.mk 2 "Blue" 1 10 "USD"])
  = (inr (Reply.mk "Excel başarıyla yüklendi!" None),
     mkStore [Product.mk 1 "Shirt"]
             [Color.mk 1 "Red" 1 10 "USD"; Color.mk 2 "Blue" 1 10 "USD"]).
Proof.
  apply (upload_excel_is_idempotent
           (rt := example_runtime shirt_sheet shirt_sheet)
           "urunler.xlsx" [] empty_store).
  - unfold constrained. simpl. repeat split; constructor.
  - reflexivity.
Defined.

(** X14, run: [padded_sheet] imports as [one_row_sheet], which has the
    same row under trimmed labels. *)
Lemma padded_labels_are_trimmed_witness :
  request (upload_excel (rt := example_runtime padded_sheet one_row_sheet)
                        "urunler.xlsx" [])
          empty_store
  = request (upload_excel (rt := example_runtime padded_sheet one_row_sheet)
                          "urunler.xlsx" [Byte.x00])
            empty_store.
Proof.
  apply (padded_labels_are_trimmed
           (rt := example_runtime padded_sheet one_row_sheet)
           "urunler.xlsx" [] [Byte.x00] padded_labels
           [[Text "Shirt"; Text "Blue"; Float 10; Text "USD"]]);
    reflexivity.
Defined.

(** X15, run: the listing of [two_product_store]. *)
Lemma get_products_lists_colors_by_product_witness :
  exists listing,
    request (get_products (rt := no_sheet)) two_product_store
    = (inr listing, two_product_store)
    /\ map fst listing = products two_product_store.
Proof.
  destruct (get_products_lists_colors_by_product (rt := no_sheet)
              two_product_store)
    as (listing & Hrun & Hmap & _).
  - simpl. repeat constructor; simpl; intuition discriminate.
  - exists listing. split; assumption.
Defined.

(** X16, run on [shirt_store]. *)
Lemma add_color_is_listed_witness :
  exists id st1,
    request (add_color (rt := no_sheet) (ColorCreate.mk 1 "Blue" 9 "EUR"))
            shirt_store
    = (inr (Reply.mk "Renk eklendi!" (Some id)), st1)
    /\ request (get_colors (rt := no_sheet)) st1
       = (inr (colors shirt_store ++ [Color.mk id "Blue" 1 9 "EUR"]), st1).
Proof.
  apply (add_color_is_listed (rt := no_sheet) shirt_store
                             (ColorCreate.mk 1 "Blue" 9 "EUR")).
  - exists (Product.mk 1 "Shirt"). split; [simpl; auto|reflexivity].
  - reflexivity.
Defined.
